(** * The betting skill: behaviours of the three rounds

    A shallow embedding of [packages/valory/skills/betting_abci/behaviours.py].
    The contract wrapper [packages/valory/contracts/betting/contract.py] gives
    the shape of the answers the behaviours read: a body with the key [data].

    The behaviours are Python generators: they run until they need something
    from the outside (an HTTP answer, a contract read, the IPFS hash, the end
    of the round), hand the request over with [yield from], and go on with the
    answer.  They are embedded as finite trees of effects, [Gen]; a [World]
    answers the effects, and [run] executes a tree against a world, giving the
    effects performed in order and the way the generator ended.  Python values
    whose type the code does not fix (message bodies, parsed API answers) are
    embedded as [PyVal], with the exception each operation raises on a value
    of the wrong type.  Logging and the benchmark tool are left out. *)

From stdpp Require Import gmap strings list pretty.
From Stdlib Require Import Ascii QArith.

Set Warnings "-register-all,-notation-for-abbreviation".
Local Open Scope Z_scope.

(** ** Python values and exceptions *)

Inductive PyExc : Set :=
| TypeError
| KeyError
| IndexError
| ValueError
| AttributeError.

(** How a Python expression ends: with a value or with an exception. *)
Inductive Outcome (A : Type) : Type :=
| Returned (a : A)
| Raised (e : PyExc).
Arguments Returned {A} a.
Arguments Raised {A} e.

Definition outcome_map {A B} (f : A -> B) (o : Outcome A) : Outcome B :=
  match o with
  | Returned a => Returned (f a)
  | Raised e => Raised e
  end.

(** [MultiSendOperation] of the multisend contract package. *)
Inductive MultiSendOperation : Set :=
| CALL
| DELEGATE_CALL.

Inductive PyVal : Type :=
| VNone
| VBool (b : bool)
| VInt (z : Z)
| VStr (s : string)
| VBytes (bs : list Byte.byte)
| VOperation (op : MultiSendOperation)
| VList (l : list PyVal)
| VDict (d : gmap string PyVal).

(** [v is None] *)
Definition is_None (v : PyVal) : bool :=
  match v with
  | VNone => true
  | _ => false
  end.

(** [d.get(key, None)] *)
Definition dict_get (d : gmap string PyVal) (key : string) : PyVal :=
  default VNone (d !! key).

(** [d[key]] on a dict *)
Definition dict_getitem (d : gmap string PyVal) (key : string) : Outcome PyVal :=
  match d !! key with
  | Some v => Returned v
  | None => Raised KeyError
  end.

(** [s[n:]] on a str *)
Fixpoint str_slice_from (n : nat) (s : string) : string :=
  match n, s with
  | O, _ => s
  | S _, EmptyString => EmptyString
  | S n', String _ s' => str_slice_from n' s'
  end.

(** [len(v)] *)
Definition py_len (v : PyVal) : Outcome nat :=
  match v with
  | VStr s => Returned (String.length s)
  | VBytes bs => Returned (length bs)
  | VList l => Returned (length l)
  | VDict d => Returned (size d)
  | VNone | VBool _ | VInt _ | VOperation _ => Raised TypeError
  end.

(** [v[n:]] *)
Definition py_slice_from (n : nat) (v : PyVal) : Outcome PyVal :=
  match v with
  | VStr s => Returned (VStr (str_slice_from n s))
  | VBytes bs => Returned (VBytes (drop n bs))
  | VList l => Returned (VList (drop n l))
  | VNone | VBool _ | VInt _ | VOperation _ | VDict _ => Raised TypeError
  end.

(** [v[0]] *)
Definition py_getitem_0 (v : PyVal) : Outcome PyVal :=
  match v with
  | VList (x :: _) => Returned x
  | VStr (String c _) => Returned (VStr (String c EmptyString))
  | VBytes (b :: _) => Returned (VInt (Z.of_N (Byte.to_N b)))
  | VList [] | VStr EmptyString | VBytes [] => Raised IndexError
  | VDict _ => Raised KeyError
  | VNone | VBool _ | VInt _ | VOperation _ => Raised TypeError
  end.

(** [v[key]] for a str key *)
Definition py_getitem_str (v : PyVal) (key : string) : Outcome PyVal :=
  match v with
  | VDict d => dict_getitem d key
  | _ => Raised TypeError
  end.

(** [s[-1]] on a str *)
Fixpoint str_last (s : string) : Outcome ascii :=
  match s with
  | EmptyString => Raised IndexError
  | String c EmptyString => Returned c
  | String _ s' => str_last s'
  end.

(** [int(c)] for a str of one character *)
Definition int_of_char (c : ascii) : Outcome Z :=
  let n := Z.of_N (N_of_ascii c) in
  if (48 <=? n) && (n <=? 57) then Returned (n - 48) else Raised ValueError.

(** [int(x)] for a float [x], which is a rational: truncation towards zero. *)
Definition int_of_float (x : Q) : Z :=
  Z.quot (Qnum x) (Z.pos (Qden x)).

(** *** [bytes.hex] and [bytes.fromhex] *)

Definition hex_digit (n : N) : ascii :=
  match n with
  | 0 => "0" | 1 => "1" | 2 => "2" | 3 => "3" | 4 => "4" | 5 => "5"
  | 6 => "6" | 7 => "7" | 8 => "8" | 9 => "9" | 10 => "a" | 11 => "b"
  | 12 => "c" | 13 => "d" | 14 => "e" | _ => "f"
  end%char%N.

(** [bs.hex()] *)
Fixpoint bytes_hex (bs : list Byte.byte) : string :=
  match bs with
  | [] => EmptyString
  | b :: bs' =>
      let n := Byte.to_N b in
      String (hex_digit (n / 16)%N) (String (hex_digit (n mod 16)%N) (bytes_hex bs'))
  end.

(** The value of a hexadecimal digit, in either case. *)
Definition hex_value (c : ascii) : option N :=
  let n := N_of_ascii c in
  if (48 <=? n)%N && (n <=? 57)%N then Some (n - 48)%N
  else if (97 <=? n)%N && (n <=? 102)%N then Some (n - 87)%N
  else if (65 <=? n)%N && (n <=? 70)%N then Some (n - 55)%N
  else None.

(** ASCII white space, which [bytes.fromhex] skips between bytes. *)
Definition is_space (c : ascii) : bool :=
  let n := N_of_ascii c in
  (n =? 32)%N || ((9 <=? n)%N && (n <=? 13)%N).

(** [bytes.fromhex(s)] *)
Fixpoint bytes_fromhex (s : string) : Outcome (list Byte.byte) :=
  match s with
  | EmptyString => Returned []
  | String c s' =>
      if is_space c then bytes_fromhex s'
      else
        match s' with
        | EmptyString => Raised ValueError
        | String d s'' =>
            match hex_value c, hex_value d with
            | Some top, Some bot =>
                match Byte.of_N (top * 16 + bot) with
                | Some b => outcome_map (cons b) (bytes_fromhex s'')
                | None => Raised ValueError
                end
            | _, _ => Raised ValueError
            end
        end
  end.

(** [v.hex()] *)
Definition py_hex (v : PyVal) : Outcome string :=
  match v with
  | VBytes bs => Returned (bytes_hex bs)
  | _ => Raised AttributeError
  end.

(** [bytes.fromhex(v)] *)
Definition py_fromhex (v : PyVal) : Outcome (list Byte.byte) :=
  match v with
  | VStr s => bytes_fromhex s
  | _ => Raised TypeError
  end.

(** ** Messages, configuration and replicated data *)

(** Modelled from the spec: the performatives of the ledger read/encode
    interface (the [ContractApiMessage] protocol is not among the sources):
    the two requests, the two matching answers, and the error answer that
    stands for every other performative. *)
Inductive Performative : Set :=
| GET_RAW_TRANSACTION
| GET_STATE
| RAW_TRANSACTION
| STATE
| ERROR.

Global Instance Performative_eq_dec : EqDecision Performative.
Proof. solve_decision. Defined.

(** An answer of the contract interface; [body] is the [body] of
    [raw_transaction] or of [state], whichever the performative carries. *)
Record ContractApiMessage : Type := {
  performative : Performative;
  body : gmap string PyVal;
}.

(** The contract classes whose [contract_id] the behaviours pass on. *)
Inductive ContractId : Set :=
| Betting
| GnosisSafeContract
| MultiSendContract.

(** The arguments of one [get_contract_api_response] call. *)
Record ContractApiRequest : Type := {
  request_performative : Performative;
  contract_address : string;
  contract_id : ContractId;
  contract_callable : string;
  kwargs : gmap string PyVal;
}.

(** Modelled from the spec: the operation codes of the multisig wallet
    ([SafeOperation] of the gnosis_safe contract package, which is not among
    the sources): plain call and delegate-call, with the wallet's wire values. *)
Module SafeOperation.
Inductive t : Set :=
| CALL
| DELEGATE_CALL.

Definition value (op : t) : Z :=
  match op with
  | CALL => 0
  | DELEGATE_CALL => 1
  end.
End SafeOperation.

(** Modelled from the spec: the answer of the HTTP interface, which the API
    specs turn into a structured response. *)
Record HttpMessage : Type := {
  status_code : Z;
  http_body : list Byte.byte;
}.

Inductive SupportedFiletype : Set :=
| JSON.

(** The events of the application ([Event] of the rounds module). *)
Inductive Event : Set :=
| DONE
| TRANSACT.

(** The configuration ([Params] of the models module), as far as the
    behaviours read it. *)
Record Params : Type := {
  betting_contract_address : string;
  multisend_address : string;
  transfer_target_address : string;
  match_key : string;
  betting_amount : Z;
}.

(** The replicated data, as far as the behaviours read it. *)
Record SynchronizedData : Type := {
  betting_result : bool;
  has_placed_bet : bool;
  safe_contract_address : string;
}.

(** The API specs of the betting endpoint. *)
Record BettingSpecs : Type := {
  get_spec : gmap string PyVal;
  process_response : HttpMessage -> PyVal;
}.

Module DataPullPayload.
Record t : Type := {
  sender : string;
  betting_result : PyVal;
  betting_ipfs_hash : option string;
  has_placed_bet : PyVal;
}.
End DataPullPayload.

Module DecisionMakingPayload.
Record t : Type := {
  sender : string;
  event : Event;
}.
End DecisionMakingPayload.

Module TxPreparationPayload.
Record t : Type := {
  sender : string;
  tx_submitter : string;
  tx_hash : option string;
}.
End TxPreparationPayload.

Inductive Payload : Type :=
| PDataPull (p : DataPullPayload.t)
| PDecisionMaking (p : DecisionMakingPayload.t)
| PTxPreparation (p : TxPreparationPayload.t).

(** What a behaviour sees of its agent: [agent_address] is local to the
    replica, the other fields are the same on all replicas.
    [last_round_transition_timestamp] is the [timestamp()] of the last block,
    a float, taken as the rational it denotes. *)
Record Context : Type := {
  agent_address : string;
  params : Params;
  synchronized_data : SynchronizedData;
  last_round_transition_timestamp : Q;
  betting_specs : BettingSpecs;
}.

(** ** Generators *)

(** What a behaviour asks of the outside, with the type of the answer. *)
Inductive Effect : Type -> Type :=
| Mkdtemp : Effect string
| GetHttpResponse (specs : gmap string PyVal) : Effect HttpMessage
| SendToIpfs (filename : string) (obj : PyVal) (filetype : SupportedFiletype) :
    Effect (option string)
| GetContractApiResponse (request : ContractApiRequest) : Effect ContractApiMessage
| SendA2ATransaction (payload : Payload) : Effect unit
| WaitUntilRoundEnd : Effect unit
| SetDone : Effect unit.

(** A generator that ends with a value of type [A]. *)
Inductive Gen (A : Type) : Type :=
| Return (a : A)
| Raise (e : PyExc)
| Yield {X : Type} (eff : Effect X) (k : X -> Gen A).
Arguments Return {A} a.
Arguments Raise {A} e.
Arguments Yield {A X} eff k.

Fixpoint gen_bind {A B : Type} (m : Gen A) (f : A -> Gen B) : Gen B :=
  match m with
  | Return a => f a
  | Raise e => Raise e
  | Yield eff k => Yield eff (fun x => gen_bind (k x) f)
  end.

Definition perform {X : Type} (eff : Effect X) : Gen X := Yield eff Return.

(** An expression evaluated inside a generator. *)
Definition eval {A : Type} (o : Outcome A) : Gen A :=
  match o with
  | Returned a => Return a
  | Raised e => Raise e
  end.

Global Instance Gen_ret : MRet Gen := @Return.
Global Instance Gen_bind : MBind Gen := fun A B f m => gen_bind m f.

(** An effect performed, whatever the type of its answer. *)
Inductive Performed : Type :=
| Did {X : Type} (eff : Effect X).

Definition contract_request (ev : Performed) : option ContractApiRequest :=
  match ev with
  | Did (GetContractApiResponse request) => Some request
  | _ => None
  end.

Definition submitted_payload (ev : Performed) : option Payload :=
  match ev with
  | Did (SendA2ATransaction payload) => Some payload
  | _ => None
  end.

(** The outside of a behaviour: it answers every effect.  No behaviour
    performs the same effect twice in one run, so an outside that answers by
    the effect alone stands for any sequence of answers. *)
Definition World : Type := forall X : Type, Effect X -> X.

(** [run w g]: the effects [g] performs against [w], in order, and how it ends. *)
Fixpoint run {A : Type} (w : World) (g : Gen A) : list Performed * Outcome A :=
  match g with
  | Return a => ([], Returned a)
  | Raise e => ([], Raised e)
  | Yield eff k =>
      let r := run w (k (w _ eff)) in
      (Did eff :: r.1, r.2)
  end.

(** ** Constants of the behaviours module *)

Definition ZERO_VALUE : Z := 0.
Definition HTTP_OK : Z := 200.
Definition GNOSIS_CHAIN_ID : string := "gnosis".
Definition EMPTY_CALL_DATA : list Byte.byte := [Byte.x30; Byte.x78].
Definition SAFE_GAS : Z := 0.
Definition VALUE_KEY : string := "value".
Definition TO_ADDRESS_KEY : string := "to_address".
Definition METADATA_FILENAME : string := "metadata.json".

(** Modelled from the spec: [TX_HASH_LENGTH] is imported from the rounds of
    the transaction settlement skill, which is not among the sources.  It is
    the length of a hash as the wallet returns it: the marker of 2 characters
    and the 64 hexadecimal characters of a hash of 32 bytes. *)
Definition TX_HASH_LENGTH : nat := 66.

(** ** BettingBaseBehaviour *)

(** [metadata_filepath]: a fresh temporary directory for every read. *)
Definition metadata_filepath : Gen string :=
  dir ← perform Mkdtemp;
  mret (dir +:+ "/" +:+ METADATA_FILENAME).

Definition get_sync_timestamp (ctx : Context) : Q :=
  last_round_transition_timestamp ctx.

(** ** DataPullBehaviour *)

Module DataPullBehaviour.

Definition get_betting_result_specs (ctx : Context) : Gen PyVal :=
  let specs := get_spec (betting_specs ctx) in
  raw_response ← perform (GetHttpResponse specs);
  let response := process_response (betting_specs ctx) raw_response in
  mret response.

Definition send_betting_result_to_ipfs (ctx : Context) (data : PyVal) :
    Gen (option string) :=
  filename ← metadata_filepath;
  betting_ipfs_hash ← perform (SendToIpfs filename data JSON);
  mret betting_ipfs_hash.

Definition has_placed_bet_request (ctx : Context) : ContractApiRequest :=
  {| request_performative := GET_RAW_TRANSACTION;
     contract_address := betting_contract_address (params ctx);
     contract_id := Betting;
     contract_callable := "has_placed_bet";
     kwargs := list_to_map
       [("chain_id", VStr GNOSIS_CHAIN_ID);
        ("bettor", VStr (transfer_target_address (params ctx)));
        ("match_key", VStr (match_key (params ctx)))] |}.

Definition get_has_placed_bet (ctx : Context) : Gen PyVal :=
  response_msg ← perform (GetContractApiResponse (has_placed_bet_request ctx));
  if bool_decide (performative response_msg ≠ RAW_TRANSACTION) then mret VNone
  else
    let response := dict_get (body response_msg) "data" in
    if is_None response then mret VNone
    else mret response.

Definition async_act (ctx : Context) : Gen unit :=
  let sender := agent_address ctx in
  response ← get_betting_result_specs ctx;
  betting_ipfs_hash ← send_betting_result_to_ipfs ctx response;
  has_placed_bet ← get_has_placed_bet ctx;
  betting_result ← eval (py_getitem_str response "result");
  has_placed_bet_0 ← eval (py_getitem_0 has_placed_bet);
  let payload :=
    {| DataPullPayload.sender := sender;
       DataPullPayload.betting_result := betting_result;
       DataPullPayload.betting_ipfs_hash := betting_ipfs_hash;
       DataPullPayload.has_placed_bet := has_placed_bet_0 |} in
  perform (SendA2ATransaction (PDataPull payload));;
  perform WaitUntilRoundEnd;;
  perform SetDone.

End DataPullBehaviour.

(** ** DecisionMakingBehaviour *)

Module DecisionMakingBehaviour.

Definition get_next_event (ctx : Context) : Event :=
  let betting_result := betting_result (synchronized_data ctx) in
  let has_placed_bet := has_placed_bet (synchronized_data ctx) in
  if betting_result && negb has_placed_bet then TRANSACT
  else DONE.

Definition async_act (ctx : Context) : Gen unit :=
  let sender := agent_address ctx in
  let event := get_next_event ctx in
  let payload :=
    {| DecisionMakingPayload.sender := sender;
       DecisionMakingPayload.event := event |} in
  perform (SendA2ATransaction (PDecisionMaking payload));;
  perform WaitUntilRoundEnd;;
  perform SetDone.

End DecisionMakingBehaviour.

(** ** TxPreparationBehaviour *)

Module TxPreparationBehaviour.
Section Imports.

(** [hash_payload_to_hex] of the payload tools of the transaction
    settlement skill, and [auto_behaviour_id()] of the base behaviour:
    neither is among the sources. *)
Variable hash_payload_to_hex :
  forall (safe_tx_hash : PyVal) (ether_value safe_tx_gas : Z)
         (to_address : string) (data : list Byte.byte) (operation : Z),
    Outcome string.
Variable auto_behaviour_id : string.

Definition get_native_transfer_data (ctx : Context) : gmap string PyVal :=
  let data : gmap string PyVal :=
    list_to_map
      [(VALUE_KEY, VInt 1);
       (TO_ADDRESS_KEY, VStr (transfer_target_address (params ctx)))] in
  data.

Definition place_bet_request (ctx : Context) : ContractApiRequest :=
  {| request_performative := GET_RAW_TRANSACTION;
     contract_address := betting_contract_address (params ctx);
     contract_id := Betting;
     contract_callable := "build_place_bet_tx";
     kwargs := list_to_map
       [("match_key", VStr (match_key (params ctx)));
        ("bettor", VStr (transfer_target_address (params ctx)));
        ("chain_id", VStr GNOSIS_CHAIN_ID)] |}.

Definition get_place_bet_data (ctx : Context) : Gen (option string) :=
  response_msg ← perform (GetContractApiResponse (place_bet_request ctx));
  if bool_decide (performative response_msg ≠ RAW_TRANSACTION) then mret None
  else
    let data_bytes := dict_get (body response_msg) "data" in
    if is_None data_bytes then mret None
    else
      data_hex ← eval (py_hex data_bytes);
      mret (Some data_hex).

Definition safe_tx_hash_request (ctx : Context) (to_address : string)
    (value : Z) (data : list Byte.byte) (operation : Z) : ContractApiRequest :=
  {| request_performative := GET_STATE;
     contract_address := safe_contract_address (synchronized_data ctx);
     contract_id := GnosisSafeContract;
     contract_callable := "get_raw_safe_transaction_hash";
     kwargs := list_to_map
       [("to_address", VStr to_address);
        ("value", VInt value);
        ("data", VBytes data);
        ("safe_tx_gas", VInt SAFE_GAS);
        ("chain_id", VStr GNOSIS_CHAIN_ID);
        ("operation", VInt operation)] |}.

(** The arguments [value], [data] and [operation] have defaults: [None]
    stands for an argument the caller leaves out. *)
Definition _build_safe_tx_hash (ctx : Context) (to_address : string)
    (value : option Z) (data : option (list Byte.byte)) (operation : option Z) :
    Gen (option string) :=
  let value := default ZERO_VALUE value in
  let data := default EMPTY_CALL_DATA data in
  let operation := default (SafeOperation.value SafeOperation.CALL) operation in
  response_msg ← perform (GetContractApiResponse
    (safe_tx_hash_request ctx to_address value data operation));
  if bool_decide (performative response_msg ≠ STATE) then mret None
  else
    let tx_hash := dict_get (body response_msg) "tx_hash" in
    invalid ←
      (if is_None tx_hash then mret true
       else
         n ← eval (py_len tx_hash);
         mret (bool_decide (n ≠ TX_HASH_LENGTH)));
    if invalid : bool then mret None
    else
      tx_hash ← eval (py_slice_from 2 tx_hash);
      safe_tx_hash ← eval (hash_payload_to_hex tx_hash value SAFE_GAS
                             to_address data operation);
      mret (Some safe_tx_hash).

Definition get_place_bet_safe_tx_hash (ctx : Context) : Gen (option string) :=
  data_hex ← get_place_bet_data ctx;
  match data_hex with
  | None => mret None
  | Some data_hex =>
      data ← eval (bytes_fromhex data_hex);
      safe_tx_hash ← _build_safe_tx_hash ctx
        (betting_contract_address (params ctx))
        (Some (betting_amount (params ctx))) (Some data) None;
      mret safe_tx_hash
  end.

Definition multisend_request (ctx : Context) (multi_send_txs : list PyVal) :
    ContractApiRequest :=
  {| request_performative := GET_RAW_TRANSACTION;
     contract_address := multisend_address (params ctx);
     contract_id := MultiSendContract;
     contract_callable := "get_tx_data";
     kwargs := list_to_map
       [("multi_send_txs", VList multi_send_txs);
        ("chain_id", VStr GNOSIS_CHAIN_ID)] |}.

Definition get_multisend_safe_tx_hash (ctx : Context) : Gen (option string) :=
  let multi_send_txs : list PyVal := [] in
  let native_transfer_data := get_native_transfer_data ctx in
  native_value ← eval (dict_getitem native_transfer_data VALUE_KEY);
  let multi_send_txs := multi_send_txs ++
    [VDict (list_to_map
       [("operation", VOperation CALL);
        ("to", VStr (transfer_target_address (params ctx)));
        ("value", native_value)])] in
  place_bet_data_hex ← get_place_bet_data ctx;
  match place_bet_data_hex with
  | None => mret None
  | Some place_bet_data_hex =>
      place_bet_data ← eval (bytes_fromhex place_bet_data_hex);
      let multi_send_txs := multi_send_txs ++
        [VDict (list_to_map
           [("operation", VOperation CALL);
            ("to", VStr (betting_contract_address (params ctx)));
            ("value", VInt (betting_amount (params ctx)));
            ("data", VBytes place_bet_data)])] in
      contract_api_msg ← perform (GetContractApiResponse
        (multisend_request ctx multi_send_txs));
      if bool_decide (performative contract_api_msg ≠ RAW_TRANSACTION)
      then mret None
      else
        packed ← eval (dict_getitem (body contract_api_msg) "data");
        multisend_data ← eval (py_slice_from 2 packed);
        data ← eval (py_fromhex multisend_data);
        safe_tx_hash ← _build_safe_tx_hash ctx
          (multisend_address (params ctx))
          (Some ZERO_VALUE) (Some data)
          (Some (SafeOperation.value SafeOperation.DELEGATE_CALL));
        mret safe_tx_hash
  end.

Definition get_tx_hash (ctx : Context) : Gen (option string) :=
  let now := int_of_float (get_sync_timestamp ctx) in
  last_char ← eval (str_last (pretty now));
  last_number ← eval (int_of_char last_char);
  if bool_decide (last_number ∈ [0; 1; 2; 3; 4; 5; 6]) then
    tx_hash ← get_place_bet_safe_tx_hash ctx;
    mret tx_hash
  else
    tx_hash ← get_multisend_safe_tx_hash ctx;
    mret tx_hash.

Definition async_act (ctx : Context) : Gen unit :=
  let sender := agent_address ctx in
  tx_hash ← get_tx_hash ctx;
  let payload :=
    {| TxPreparationPayload.sender := sender;
       TxPreparationPayload.tx_submitter := auto_behaviour_id;
       TxPreparationPayload.tx_hash := tx_hash |} in
  perform (SendA2ATransaction (PTxPreparation payload));;
  perform WaitUntilRoundEnd;;
  perform SetDone.

End Imports.
End TxPreparationBehaviour.

(** ** The Betting contract wrapper *)

Definition PUBLIC_ID : string := "valory/betting:0.1.0".

(** What [get_instance] gives (web3, not among the sources): the call of a
    function of the contract with its arguments, and the ABI encoder, whose
    result is a hex string with its marker. *)
Record ContractInstance : Type := {
  functions_call : string -> list PyVal -> PyVal;
  encodeABI : string -> list PyVal -> string;
}.

Module BettingContract.

Definition match_keys (contract_instance : ContractInstance) : gmap string PyVal :=
  let match_keys := functions_call contract_instance "matchKeys" [] in
  {[ "match_keys" := match_keys ]}.

Definition has_placed_bet (contract_instance : ContractInstance)
    (bettor match_key : string) : gmap string PyVal :=
  let has_placed_bet :=
    functions_call contract_instance "hasPlacedBet" [VStr bettor; VStr match_key] in
  {[ "data" := has_placed_bet ]}.

Definition is_valid_match_key (contract_instance : ContractInstance)
    (match_key : string) : gmap string PyVal :=
  let is_valid_key :=
    functions_call contract_instance "isValidMatchKey" [VStr match_key] in
  {[ "data" := is_valid_key ]}.

Definition build_place_bet_tx (contract_instance : ContractInstance)
    (bettor match_key : string) : Outcome (gmap string PyVal) :=
  let data := encodeABI contract_instance "placeBet" [VStr bettor; VStr match_key] in
  outcome_map (fun decoded : list Byte.byte => {[ "data" := VBytes decoded ]})
    (bytes_fromhex (str_slice_from 2 data)).

End BettingContract.

(** ** What a generator asks for *)

(** The requests to the contract interface among the effects performed. *)
Definition contract_requests (trace : list Performed) : list ContractApiRequest :=
  omap contract_request trace.

(** The payloads sent for agreement among the effects performed. *)
Definition submitted_payloads (trace : list Performed) : list Payload :=
  omap submitted_payload trace.

(** [contract_only g]: whatever the answers, [g] performs no effect but
    requests to the contract interface. *)
Inductive contract_only {A : Type} : Gen A -> Prop :=
| contract_only_Return a : contract_only (Return a)
| contract_only_Raise e : contract_only (Raise e)
| contract_only_Yield request k :
    (forall msg, contract_only (k msg)) ->
    contract_only (Yield (GetContractApiResponse request) k).

(** The list of sub-transactions the batched path has built when it asks
    the multisend adapter, the bet-placement call data being [place_bet_data]. *)
Definition batched_multi_send_txs (ctx : Context)
    (place_bet_data : list Byte.byte) : list PyVal :=
  [VDict (list_to_map
     [("operation", VOperation CALL);
      ("to", VStr (transfer_target_address (params ctx)));
      ("value", VInt 1)]);
   VDict (list_to_map
     [("operation", VOperation CALL);
      ("to", VStr (betting_contract_address (params ctx)));
      ("value", VInt (betting_amount (params ctx)));
      ("data", VBytes place_bet_data)])].

(** The sender of a payload. *)
Definition payload_sender (p : Payload) : string :=
  match p with
  | PDataPull p => DataPullPayload.sender p
  | PDecisionMaking p => DecisionMakingPayload.sender p
  | PTxPreparation p => TxPreparationPayload.sender p
  end.

(** The effects that ask the outside for something, as opposed to the three
    that end a stage: sending the payload, awaiting the round, [set_done]. *)
Definition is_request (ev : Performed) : bool :=
  match ev with
  | Did (SendA2ATransaction _) | Did WaitUntilRoundEnd | Did SetDone => false
  | _ => true
  end.

(** How a stage of the agent at [address] may run: either it ends normally,
    and then it made requests, sent one payload of its own, awaited the round
    and set itself done, in this order; or it raises, and then it made
    requests only. *)
Definition sends_once_then_done (address : string)
    (r : list Performed * Outcome unit) : Prop :=
  match r.2 with
  | Returned _ =>
      exists (requests : list Performed) (p : Payload),
        r.1 = requests ++
                [Did (SendA2ATransaction p); Did WaitUntilRoundEnd; Did SetDone] /\
        forallb is_request requests = true /\
        payload_sender p = address
  | Raised _ => forallb is_request r.1 = true
  end.

(** ** A sample agent and a sample outside *)

Definition sample_params : Params :=
  {| betting_contract_address := "0x5FbDB2315678afecb367f032d93F642f64180aa3";
     multisend_address := "0xA238CBeb142c10Ef7Ad8442C6D1f9E89e07e7761";
     transfer_target_address := "0x70997970C51812dc3A010C7d01b50e0d17dc79C8";
     match_key := "match-1";
     betting_amount := 1000 |}.

Definition sample_context (timestamp : Q) : Context :=
  {| agent_address := "agent-0";
     params := sample_params;
     synchronized_data :=
       {| betting_result := true;
          has_placed_bet := false;
          safe_contract_address := "0x9fE46736679d2D9a65F0992F2272dE9f3c7fa6e0" |};
     last_round_transition_timestamp := timestamp;
     betting_specs :=
       {| get_spec := list_to_map [("method", VStr "GET")];
          process_response := fun _ =>
            VDict (list_to_map [("result", VBool true)]) |} |}.

(** A wallet hash as the wallet returns it: the marker and 64 characters. *)
Definition sample_raw_hash : string :=
  "0x" +:+
  "00112233445566778899aabbccddeeff00112233445566778899aabbccddeeff".

(** The contract interface of the sample outside; [placed] is its answer to
    the read of the bet-placement flag, [raw_hash] what the wallet returns. *)
Definition sample_contract_api (placed : ContractApiMessage) (raw_hash : string)
    (request : ContractApiRequest) : ContractApiMessage :=
  if String.eqb (contract_callable request) "has_placed_bet" then placed
  else if String.eqb (contract_callable request) "build_place_bet_tx" then
    {| performative := RAW_TRANSACTION;
       body := list_to_map [("data", VBytes [Byte.xa9; Byte.x05; Byte.x9c; Byte.xbb])] |}
  else if String.eqb (contract_callable request) "get_tx_data" then
    {| performative := RAW_TRANSACTION;
       body := list_to_map [("data", VStr "0x8d80ff0a00")] |}
  else
    {| performative := STATE;
       body := list_to_map [("tx_hash", VStr raw_hash)] |}.

Definition sample_world (ipfs : option string) (placed : ContractApiMessage)
    (raw_hash : string) : World :=
  fun X eff =>
    match eff in Effect X return X with
    | Mkdtemp => "/tmp/tmp8x1k2"
    | GetHttpResponse _ => {| status_code := HTTP_OK; http_body := [] |}
    | SendToIpfs _ _ _ => ipfs
    | GetContractApiResponse request => sample_contract_api placed raw_hash request
    | SendA2ATransaction _ => tt
    | WaitUntilRoundEnd => tt
    | SetDone => tt
    end.

(** The flag read as a one-element sequence, and a failed read. *)
Definition sample_placed : ContractApiMessage :=
  {| performative := RAW_TRANSACTION;
     body := list_to_map [("data", VList [VBool false])] |}.

Definition sample_failed_read : ContractApiMessage :=
  {| performative := ERROR; body := ∅ |}.

(** An answer with the right performative but without the data key. *)
Definition sample_read_without_data : ContractApiMessage :=
  {| performative := RAW_TRANSACTION; body := ∅ |}.

(** The agent at a timestamp that ends in 3, and at one that ends in 8 and
    has a fractional part. *)
Definition sample_ctx : Context := sample_context 1700000003.
Definition sample_batched_ctx : Context := sample_context (3400000017 # 2).

(** The same replicated data on another replica. *)
Definition sample_other_ctx : Context :=
  {| agent_address := "agent-1";
     params := params sample_ctx;
     synchronized_data := synchronized_data sample_ctx;
     last_round_transition_timestamp := last_round_transition_timestamp sample_ctx;
     betting_specs := betting_specs sample_ctx |}.

(** Outsides: one where everything works, one where the storage gives no
    hash, two where the read of the flag fails, one where the wallet returns
    a hash that is too short. *)
Definition sample_outside : World :=
  sample_world (Some "QmSample") sample_placed sample_raw_hash.
Definition sample_outside_without_ipfs : World :=
  sample_world None sample_placed sample_raw_hash.
Definition sample_outside_failed_read : World :=
  sample_world (Some "QmSample") sample_failed_read sample_raw_hash.
Definition sample_outside_read_without_data : World :=
  sample_world (Some "QmSample") sample_read_without_data sample_raw_hash.
Definition sample_outside_short_hash : World :=
  sample_world (Some "QmSample") sample_placed "0x00112233".

(** A contract whose [hasPlacedBet] gives a bare boolean and whose encoder
    gives the selector of [placeBet] and one argument byte. *)
Definition sample_contract_instance : ContractInstance :=
  {| functions_call := fun name _ =>
       if String.eqb name "matchKeys" then VList [VStr "match-1"] else VBool false;
     encodeABI := fun _ _ => "0xa9059cbb" |}.

(** An outside whose read of the flag is the wrapper on that contract. *)
Definition sample_outside_bare_flag : World :=
  sample_world (Some "QmSample")
    {| performative := RAW_TRANSACTION;
       body := BettingContract.has_placed_bet sample_contract_instance
                 (transfer_target_address sample_params)
                 (match_key sample_params) |}
    sample_raw_hash.

(** A contract whose [hasPlacedBet] gives a pair, the flag first. *)
Definition sample_contract_instance_pair : ContractInstance :=
  {| functions_call := fun _ _ => VList [VBool true; VInt 7];
     encodeABI := fun _ _ => "0xa9059cbb01" |}.

Definition sample_outside_pair_flag : World :=
  sample_world (Some "QmSample")
    {| performative := RAW_TRANSACTION;
       body := BettingContract.has_placed_bet sample_contract_instance_pair
                 (transfer_target_address sample_params)
                 (match_key sample_params) |}
    sample_raw_hash.

(** The agent when the API gave nothing that could be parsed. *)
Definition sample_ctx_failed_fetch : Context :=
  {| agent_address := agent_address sample_ctx;
     params := params sample_ctx;
     synchronized_data := synchronized_data sample_ctx;
     last_round_transition_timestamp := last_round_transition_timestamp sample_ctx;
     betting_specs :=
       {| get_spec := get_spec (betting_specs sample_ctx);
          process_response := fun _ => VNone |} |}.

(** Outsides where the batched path fails late: the multisend adapter
    answers with an error, without the key [data], with a string that is not
    hexadecimal; and one where the wallet answers with a number. *)
Definition sample_world_multisend (packed : ContractApiMessage)
    (wallet : ContractApiMessage) : World :=
  fun X eff =>
    match eff in Effect X return X with
    | GetContractApiResponse request =>
        if String.eqb (contract_callable request) "get_tx_data" then packed
        else if String.eqb (contract_callable request)
                  "get_raw_safe_transaction_hash" then wallet
        else sample_outside _ (GetContractApiResponse request)
    | eff' => sample_outside _ eff'
    end.

Definition sample_wallet_answer : ContractApiMessage :=
  {| performative := STATE; body := {[ "tx_hash" := VStr sample_raw_hash ]} |}.

Definition sample_outside_multisend_error : World :=
  sample_world_multisend {| performative := ERROR; body := ∅ |} sample_wallet_answer.
Definition sample_outside_multisend_without_data : World :=
  sample_world_multisend {| performative := RAW_TRANSACTION; body := ∅ |}
    sample_wallet_answer.
Definition sample_outside_multisend_not_hex : World :=
  sample_world_multisend
    {| performative := RAW_TRANSACTION; body := {[ "data" := VStr "0x8d8" ]} |}
    sample_wallet_answer.
Definition sample_outside_wallet_number : World :=
  sample_world_multisend
    {| performative := RAW_TRANSACTION; body := {[ "data" := VStr "0x8d80ff0a00" ]} |}
    {| performative := STATE; body := {[ "tx_hash" := VInt 66 ]} |}.
Definition sample_outside_wallet_error : World :=
  sample_world_multisend
    {| performative := RAW_TRANSACTION; body := {[ "data" := VStr "0x8d80ff0a00" ]} |}
    {| performative := ERROR; body := ∅ |}.

(** An outside where the request for the call data is answered with an
    error. *)
Definition sample_outside_no_call_data : World :=
  fun X eff =>
    match eff in Effect X return X with
    | GetContractApiResponse request =>
        if String.eqb (contract_callable request) "build_place_bet_tx"
        then {| performative := ERROR; body := ∅ |}
        else sample_outside _ (GetContractApiResponse request)
    | eff' => sample_outside _ eff'
    end.

(** A stand-in for [hash_payload_to_hex]: it keeps the hash and the value. *)
Definition sample_hash_payload_to_hex (safe_tx_hash : PyVal)
    (ether_value safe_tx_gas : Z) (to_address : string)
    (data : list Byte.byte) (operation : Z) : Outcome string :=
  match safe_tx_hash with
  | VStr s => Returned (s +:+ pretty ether_value +:+ pretty operation)
  | _ => Raised TypeError
  end.

(** * Properties *)

(** ** Running generators *)

Lemma run_bind {A B} (w : World) (m : Gen A) (f : A -> Gen B) :
  run w (m ≫= f) =
    match (run w m).2 with
    | Returned a => ((run w m).1 ++ (run w (f a)).1, (run w (f a)).2)
    | Raised e => ((run w m).1, Raised e)
    end.
Proof.
  unfold mbind, Gen_bind.
  induction m as [a | e | X eff k IH]; simpl.
  - by destruct (run w (f a)).
  - done.
  - rewrite IH. by destruct (run w (k (w X eff))).2.
Qed.

Lemma run_mret {A} (w : World) (a : A) : run w (mret a) = ([], Returned a).
Proof. done. Qed.

Lemma run_perform {X} (w : World) (eff : Effect X) :
  run w (perform eff) = ([Did eff], Returned (w X eff)).
Proof. done. Qed.

Lemma run_eval {A} (w : World) (o : Outcome A) : run w (eval o) = ([], o).
Proof. by destruct o. Qed.

Lemma run_eval_bind {A B} (w : World) (o : Outcome A) (f : A -> Gen B) :
  run w (eval o ≫= f) =
    match o with
    | Returned a => run w (f a)
    | Raised e => ([], Raised e)
    end.
Proof. by destruct o. Qed.

Lemma run_perform_bind {X B} (w : World) (eff : Effect X) (f : X -> Gen B) :
  run w (perform eff ≫= f) =
    (Did eff :: (run w (f (w X eff))).1, (run w (f (w X eff))).2).
Proof. done. Qed.

(** Ending a generator with [mret] of its own result changes nothing. *)
Lemma run_bind_mret {A} (w : World) (m : Gen A) :
  run w (a ← m; mret a) = run w m.
Proof.
  rewrite run_bind. destruct (run w m) as [t [a | e]]; simpl; [|done].
  by rewrite app_nil_r.
Qed.

(** C1: the decision of DecisionMaking is TRANSACT exactly when
    [betting_result] is true and [has_placed_bet] is false, it is DONE for
    the three other combinations, and it depends on nothing else: two
    contexts that agree on the two booleans give the same event. *)
Theorem get_next_event_decision :
  (forall ctx : Context,
     DecisionMakingBehaviour.get_next_event ctx = TRANSACT <->
     betting_result (synchronized_data ctx) = true /\
     has_placed_bet (synchronized_data ctx) = false) /\
  (forall ctx : Context,
     DecisionMakingBehaviour.get_next_event ctx = DONE <->
     ~ (betting_result (synchronized_data ctx) = true /\
        has_placed_bet (synchronized_data ctx) = false)) /\
  (forall ctx ctx' : Context,
     betting_result (synchronized_data ctx) =
       betting_result (synchronized_data ctx') ->
     has_placed_bet (synchronized_data ctx) =
       has_placed_bet (synchronized_data ctx') ->
     DecisionMakingBehaviour.get_next_event ctx =
       DecisionMakingBehaviour.get_next_event ctx').
Proof.
  unfold DecisionMakingBehaviour.get_next_event.
  split; [|split].
  - intros ctx.
    destruct (betting_result _), (has_placed_bet _); simpl; intuition congruence.
  - intros ctx.
    destruct (betting_result _), (has_placed_bet _); simpl; intuition congruence.
  - by intros ctx ctx' -> ->.
Qed.

(** ** The last character of a decimal numeral *)

Lemma str_last_cons (c : ascii) (s : string) :
  s <> EmptyString -> str_last (String c s) = str_last s.
Proof. by destruct s. Qed.

Lemma str_last_Returned_nonempty (s : string) (c : ascii) :
  str_last s = Returned c -> s <> EmptyString.
Proof. by destruct s. Qed.

Lemma str_last_pretty_N_go (x : N) (s : string) :
  s <> EmptyString -> str_last (pretty_N_go x s) = str_last s.
Proof.
  revert s. induction (N.lt_wf_0 x) as [x _ IH]; intros s Hs.
  destruct (decide (x = 0)%N) as [-> | Hx].
  - by rewrite pretty_N_go_0.
  - rewrite pretty_N_go_step by lia.
    rewrite IH; [by apply str_last_cons | apply N.div_lt; lia | done].
Qed.

Lemma str_last_pretty_N (x : N) :
  str_last (pretty x) = Returned (pretty_N_char (x mod 10)).
Proof.
  unfold pretty, pretty_N. case_decide as Hx; [by subst |].
  rewrite pretty_N_go_step by lia.
  by rewrite str_last_pretty_N_go.
Qed.

Lemma str_last_pretty_Z (z : Z) :
  str_last (pretty z) = Returned (pretty_N_char (Z.to_N (Z.abs z) mod 10)).
Proof.
  destruct z as [| p | p]; [done | apply (str_last_pretty_N (N.pos p)) |].
  change (pretty (Z.neg p)) with (String "-" (pretty (N.pos p))).
  rewrite str_last_cons; [apply (str_last_pretty_N (N.pos p)) |].
  eapply str_last_Returned_nonempty, (str_last_pretty_N (N.pos p)).
Qed.

Lemma int_of_char_pretty_N_char (d : N) :
  (d < 10)%N -> int_of_char (pretty_N_char d) = Returned (Z.of_N d).
Proof.
  intros Hd.
  assert (d = 0 \/ d = 1 \/ d = 2 \/ d = 3 \/ d = 4 \/ d = 5 \/ d = 6 \/
          d = 7 \/ d = 8 \/ d = 9)%N as H by lia.
  by repeat (destruct H as [-> | H]); subst.
Qed.

(** [int(str(now)[-1])] is the last decimal digit of [now]. *)
Lemma last_number_digit (now : Z) :
  exists c, str_last (pretty now) = Returned c /\
            int_of_char c = Returned (Z.abs now mod 10).
Proof.
  eexists; split; [apply str_last_pretty_Z |].
  rewrite int_of_char_pretty_N_char by (apply N.mod_lt; lia).
  f_equal. rewrite N2Z.inj_mod, Z2N.id by lia. done.
Qed.

(** ** [bytes.fromhex] undoes [bytes.hex] *)

Lemma bytes_fromhex_hex_step (b : Byte.byte) (s : string) :
  bytes_fromhex
    (String (hex_digit (Byte.to_N b / 16)%N)
       (String (hex_digit (Byte.to_N b mod 16)%N) s)) =
  outcome_map (cons b) (bytes_fromhex s).
Proof. destruct b; reflexivity. Qed.

Lemma bytes_fromhex_hex (bs : list Byte.byte) :
  bytes_fromhex (bytes_hex bs) = Returned bs.
Proof.
  induction bs as [| b bs IH]; [done |].
  cbn [bytes_hex]. rewrite bytes_fromhex_hex_step, IH. done.
Qed.

Lemma length_str_slice_from (n : nat) (s : string) :
  String.length (str_slice_from n s) = (String.length s - n)%nat.
Proof.
  revert s. induction n as [| n IH]; intros [| c s]; simpl; auto with lia.
Qed.

(** ** The TxPreparation stage *)

Section TxPreparation.

Variable hash_payload_to_hex :
  PyVal -> Z -> Z -> string -> list Byte.byte -> Z -> Outcome string.
Variable auto_behaviour_id : string.

Local Notation place_bet_request := TxPreparationBehaviour.place_bet_request.
Local Notation multisend_request := TxPreparationBehaviour.multisend_request.
Local Notation safe_tx_hash_request := TxPreparationBehaviour.safe_tx_hash_request.
Local Notation get_place_bet_data := TxPreparationBehaviour.get_place_bet_data.
Local Notation _build_safe_tx_hash :=
  (TxPreparationBehaviour._build_safe_tx_hash hash_payload_to_hex).
Local Notation get_place_bet_safe_tx_hash :=
  (TxPreparationBehaviour.get_place_bet_safe_tx_hash hash_payload_to_hex).
Local Notation get_multisend_safe_tx_hash :=
  (TxPreparationBehaviour.get_multisend_safe_tx_hash hash_payload_to_hex).
Local Notation get_tx_hash :=
  (TxPreparationBehaviour.get_tx_hash hash_payload_to_hex).

(** C3: the path of TxPreparation is chosen by the last decimal digit [d] of
    the synchronized timestamp alone, which is the timestamp modulo 10 for a
    timestamp that is not negative: for [d] from 0 to 6 the stage runs the
    single bet-placement path, for [d] from 7 to 9 the batched path, and [d]
    is always one of the ten digits. *)
Theorem get_tx_hash_selector (ctx : Context) (w : World) :
  let now := int_of_float (get_sync_timestamp ctx) in
  exists d : Z,
    (exists c, str_last (pretty now) = Returned c /\ int_of_char c = Returned d) /\
    d = Z.abs now mod 10 /\
    (0 <= now -> d = now mod 10) /\
    (0 <= d <= 6 \/ 7 <= d <= 9) /\
    run w (get_tx_hash ctx) =
      if decide (d <= 6) then run w (get_place_bet_safe_tx_hash ctx)
      else run w (get_multisend_safe_tx_hash ctx).
Proof.
  intros now. exists (Z.abs now mod 10).
  destruct (last_number_digit now) as (c & Hc & Hd).
  assert (0 <= Z.abs now mod 10 < 10) as Hrange by (apply Z.mod_pos_bound; lia).
  split; [by exists c |]. split; [done |].
  split; [intros Hnow; by rewrite Z.abs_eq |]. split; [lia |].
  unfold TxPreparationBehaviour.get_tx_hash. fold now.
  rewrite run_eval_bind, Hc, run_eval_bind, Hd.
  set (d := Z.abs now mod 10) in *.
  destruct (decide (d <= 6)) as [Hle | Hgt].
  - rewrite bool_decide_eq_true_2; [apply run_bind_mret |].
    assert (d = 0 \/ d = 1 \/ d = 2 \/ d = 3 \/ d = 4 \/ d = 5 \/ d = 6)
      as H by lia.
    rewrite !elem_of_cons. tauto.
  - rewrite bool_decide_eq_false_2; [apply run_bind_mret |].
    rewrite !elem_of_cons, elem_of_nil. lia.
Qed.

(** *** The runs of the sub-steps *)

Lemma run_get_place_bet_data (w : World) (ctx : Context) :
  run w (get_place_bet_data ctx) =
    ([Did (GetContractApiResponse (place_bet_request ctx))],
     let response_msg := w _ (GetContractApiResponse (place_bet_request ctx)) in
     if bool_decide (performative response_msg ≠ RAW_TRANSACTION) then Returned None
     else if is_None (dict_get (body response_msg) "data") then Returned None
     else outcome_map Some (py_hex (dict_get (body response_msg) "data"))).
Proof.
  unfold TxPreparationBehaviour.get_place_bet_data.
  rewrite run_perform_bind. cbv zeta.
  case_bool_decide; [done |].
  destruct (is_None _); [done |].
  rewrite run_eval_bind. by destruct (py_hex _).
Qed.

Lemma run_build_safe_tx_hash (w : World) (ctx : Context) (to_address : string)
    (value : option Z) (data : option (list Byte.byte)) (operation : option Z) :
  let value' := default ZERO_VALUE value in
  let data' := default EMPTY_CALL_DATA data in
  let operation' := default (SafeOperation.value SafeOperation.CALL) operation in
  let request := safe_tx_hash_request ctx to_address value' data' operation' in
  run w (_build_safe_tx_hash ctx to_address value data operation) =
    ([Did (GetContractApiResponse request)],
     let response_msg := w _ (GetContractApiResponse request) in
     let tx_hash := dict_get (body response_msg) "tx_hash" in
     if bool_decide (performative response_msg ≠ STATE) then Returned None
     else if is_None tx_hash then Returned None
     else
       match py_len tx_hash with
       | Raised e => Raised e
       | Returned n =>
           if bool_decide (n ≠ TX_HASH_LENGTH) then Returned None
           else
             match py_slice_from 2 tx_hash with
             | Raised e => Raised e
             | Returned stripped =>
                 outcome_map Some
                   (hash_payload_to_hex stripped value' SAFE_GAS to_address
                      data' operation')
             end
       end).
Proof.
  intros value' data' operation' request.
  unfold TxPreparationBehaviour._build_safe_tx_hash.
  fold value' data' operation'. cbv zeta. fold request.
  rewrite run_perform_bind.
  case_bool_decide; [done |].
  destruct (is_None _).
  { by rewrite run_bind, run_mret. }
  rewrite run_bind, run_eval_bind.
  destruct (py_len _) as [n | e]; [| done].
  rewrite run_mret. cbn [fst snd app].
  case_bool_decide; [done |].
  rewrite run_eval_bind.
  destruct (py_slice_from _ _) as [stripped | e]; [| done].
  rewrite run_eval_bind.
  by destruct (hash_payload_to_hex _ _ _ _ _ _).
Qed.

Lemma run_get_place_bet_data_unavailable (w : World) (ctx : Context) :
  let response_msg := w _ (GetContractApiResponse (place_bet_request ctx)) in
  performative response_msg ≠ RAW_TRANSACTION \/
    dict_get (body response_msg) "data" = VNone ->
  run w (get_place_bet_data ctx) =
    ([Did (GetContractApiResponse (place_bet_request ctx))], Returned None).
Proof.
  intros response_msg H. rewrite run_get_place_bet_data. fold response_msg.
  cbv zeta. case_bool_decide as Hp; [done |].
  destruct H as [H | ->]; [done |]. done.
Qed.

Lemma run_get_place_bet_data_bytes (w : World) (ctx : Context)
    (bs : list Byte.byte) :
  let response_msg := w _ (GetContractApiResponse (place_bet_request ctx)) in
  performative response_msg = RAW_TRANSACTION ->
  body response_msg !! "data" = Some (VBytes bs) ->
  run w (get_place_bet_data ctx) =
    ([Did (GetContractApiResponse (place_bet_request ctx))],
     Returned (Some (bytes_hex bs))).
Proof.
  intros response_msg Hp Hd. rewrite run_get_place_bet_data. fold response_msg.
  cbv zeta. rewrite bool_decide_eq_false_2 by (by intros []).
  unfold dict_get. by rewrite Hd.
Qed.

(** C2: when the wallet interface returns a hash string [s], the stage checks
    its length and strips the marker of 2 characters: it produces no hash
    when the stripped string does not have exactly 64 characters, and
    otherwise hands the stripped string, whole, to the encoder and returns
    what the encoder returns. *)
Theorem build_safe_tx_hash_length (w : World) (ctx : Context)
    (to_address : string) (value : option Z) (data : option (list Byte.byte))
    (operation : option Z) (s : string) :
  let value' := default ZERO_VALUE value in
  let data' := default EMPTY_CALL_DATA data in
  let operation' := default (SafeOperation.value SafeOperation.CALL) operation in
  let response_msg :=
    w _ (GetContractApiResponse
           (safe_tx_hash_request ctx to_address value' data' operation')) in
  let stripped := str_slice_from 2 s in
  let result := (run w (_build_safe_tx_hash ctx to_address value data operation)).2 in
  performative response_msg = STATE ->
  body response_msg !! "tx_hash" = Some (VStr s) ->
  (String.length stripped ≠ 64%nat -> result = Returned None) /\
  (String.length stripped = 64%nat ->
     result = outcome_map Some
                (hash_payload_to_hex (VStr stripped) value' SAFE_GAS to_address
                   data' operation')).
Proof.
  intros value' data' operation' response_msg stripped result Hp Hs.
  subst result. rewrite run_build_safe_tx_hash.
  fold value' data' operation' response_msg. cbv zeta. cbn [snd].
  rewrite bool_decide_eq_false_2 by (by intros []).
  unfold dict_get. rewrite Hs.
  change (default VNone (Some (VStr s))) with (VStr s).
  cbn [is_None py_len py_slice_from]. fold stripped.
  pose proof (length_str_slice_from 2 s) as Hstripped. fold stripped in Hstripped.
  unfold TX_HASH_LENGTH.
  split; intros Hlen.
  - by rewrite bool_decide_eq_true_2 by lia.
  - by rewrite bool_decide_eq_false_2 by lia.
Qed.

(** C5: on the single-transaction path, when the bet-placement call data is
    unavailable the path ends with no hash after the one request; when the
    adapter returns the encoded call, the path asks the wallet for the
    signature hash with the betting contract as destination, the configured
    bet amount as value, the encoded call as data, gas 0 and operation plain
    call. *)
Theorem get_place_bet_safe_tx_hash_request (w : World) (ctx : Context) :
  let response_msg := w _ (GetContractApiResponse (place_bet_request ctx)) in
  (performative response_msg ≠ RAW_TRANSACTION \/
     dict_get (body response_msg) "data" = VNone ->
   run w (get_place_bet_safe_tx_hash ctx) =
     ([Did (GetContractApiResponse (place_bet_request ctx))], Returned None)) /\
  (forall bs : list Byte.byte,
     performative response_msg = RAW_TRANSACTION ->
     body response_msg !! "data" = Some (VBytes bs) ->
     exists request : ContractApiRequest,
       contract_requests (run w (get_place_bet_safe_tx_hash ctx)).1 =
         [place_bet_request ctx; request] /\
       request_performative request = GET_STATE /\
       contract_address request = safe_contract_address (synchronized_data ctx) /\
       contract_id request = GnosisSafeContract /\
       contract_callable request = "get_raw_safe_transaction_hash" /\
       kwargs request !! "to_address" =
         Some (VStr (betting_contract_address (params ctx))) /\
       kwargs request !! "value" = Some (VInt (betting_amount (params ctx))) /\
       kwargs request !! "data" = Some (VBytes bs) /\
       kwargs request !! "safe_tx_gas" = Some (VInt 0) /\
       kwargs request !! "operation" =
         Some (VInt (SafeOperation.value SafeOperation.CALL))).
Proof.
  intros response_msg. split.
  - intros H. unfold TxPreparationBehaviour.get_place_bet_safe_tx_hash.
    rewrite run_bind, run_get_place_bet_data_unavailable by done. done.
  - intros bs Hp Hd.
    unfold TxPreparationBehaviour.get_place_bet_safe_tx_hash.
    rewrite run_bind, (run_get_place_bet_data_bytes w ctx bs) by done.
    cbn [fst snd]. rewrite run_eval_bind, bytes_fromhex_hex, run_bind_mret.
    rewrite run_build_safe_tx_hash. cbn [fst snd app default].
    eexists. split; [reflexivity |].
    repeat split; reflexivity.
Qed.

(** *** The batched path *)

(** The requests of the batched path, whatever the outside answers: the
    request for the bet-placement call; then, if it gave call data [bs], the
    request to pack the two sub-transactions; then, if that gave a packed
    call [data], the request for the wallet's signature hash. *)
Lemma get_multisend_safe_tx_hash_requests (w : World) (ctx : Context) :
  let requests :=
    contract_requests (run w (get_multisend_safe_tx_hash ctx)).1 in
  requests = [place_bet_request ctx] \/
  exists bs : list Byte.byte,
    let multi_send_txs :=
      [VDict (list_to_map
         [("operation", VOperation CALL);
          ("to", VStr (transfer_target_address (params ctx)));
          ("value", VInt 1)]);
       VDict (list_to_map
         [("operation", VOperation CALL);
          ("to", VStr (betting_contract_address (params ctx)));
          ("value", VInt (betting_amount (params ctx)));
          ("data", VBytes bs)])] in
    requests = [place_bet_request ctx; multisend_request ctx multi_send_txs] \/
    exists data : list Byte.byte,
      requests =
        [place_bet_request ctx;
         multisend_request ctx multi_send_txs;
         safe_tx_hash_request ctx (multisend_address (params ctx)) ZERO_VALUE
           data (SafeOperation.value SafeOperation.DELEGATE_CALL)].
Proof.
  intros requests. subst requests.
  unfold TxPreparationBehaviour.get_multisend_safe_tx_hash. cbv zeta.
  rewrite run_eval_bind.
  change (dict_getitem (TxPreparationBehaviour.get_native_transfer_data ctx)
            VALUE_KEY) with (Returned (VInt 1)).
  cbv iota beta.
  rewrite run_bind, run_get_place_bet_data. cbv zeta. cbn [fst snd].
  case_bool_decide as Hp; [by left |].
  destruct (is_None _); [by left |].
  destruct (dict_get _ "data") as [| | | | bs | | |]; try by left.
  cbn [py_hex outcome_map].
  rewrite run_eval_bind, bytes_fromhex_hex.
  right. exists bs. cbv zeta.
  rewrite run_perform_bind. cbn [fst snd].
  case_bool_decide as Hp'; [by left |].
  rewrite run_eval_bind.
  destruct (dict_getitem _ _) as [packed | e]; [| by left].
  rewrite run_eval_bind.
  destruct (py_slice_from 2 packed) as [multisend_data | e]; [| by left].
  rewrite run_eval_bind.
  destruct (py_fromhex multisend_data) as [data | e]; [| by left].
  rewrite run_bind_mret, run_build_safe_tx_hash.
  right. by exists data.
Qed.

Lemma place_bet_request_multi_send_txs (ctx : Context) :
  kwargs (place_bet_request ctx) !! "multi_send_txs" = None.
Proof. reflexivity. Qed.

Lemma multisend_request_multi_send_txs (ctx : Context) (txs : list PyVal) :
  kwargs (multisend_request ctx txs) !! "multi_send_txs" = Some (VList txs).
Proof. reflexivity. Qed.

Lemma safe_tx_hash_request_multi_send_txs (ctx : Context) (to_address : string)
    (value : Z) (data : list Byte.byte) (operation : Z) :
  kwargs (safe_tx_hash_request ctx to_address value data operation)
    !! "multi_send_txs" = None.
Proof. reflexivity. Qed.

(** Splits on which request of the batched path [request] is. *)
Ltac batched_request_cases w ctx Hin :=
  let bs := fresh "bs" in
  let data := fresh "data" in
  let H := fresh "Hrequests" in
  destruct (get_multisend_safe_tx_hash_requests w ctx)
    as [H | (bs & [H | (data & H)])];
  cbv zeta in H; try rewrite H; rewrite H in Hin; clear H.

(** C4: on the batched path, the list handed to the multisend adapter has
    exactly two sub-transactions, the native transfer first and the
    bet-placement call second, and the request for the wallet's signature
    hash, which comes right after it, has value 0 and operation
    delegate-call, whatever the bet amount. *)
Theorem get_multisend_safe_tx_hash_composition (w : World) (ctx : Context) :
  let requests :=
    contract_requests (run w (get_multisend_safe_tx_hash ctx)).1 in
  (forall request : ContractApiRequest,
     request ∈ requests ->
     contract_callable request = "get_tx_data" ->
     exists native_transfer place_bet : gmap string PyVal,
       kwargs request !! "multi_send_txs" =
         Some (VList [VDict native_transfer; VDict place_bet]) /\
       native_transfer !! "to" =
         Some (VStr (transfer_target_address (params ctx))) /\
       native_transfer !! "data" = None /\
       place_bet !! "to" =
         Some (VStr (betting_contract_address (params ctx))) /\
       is_Some (place_bet !! "data")) /\
  (forall (i : nat) (request : ContractApiRequest),
     requests !! i = Some request ->
     contract_callable request = "get_raw_safe_transaction_hash" ->
     (exists packing : ContractApiRequest,
        i = 2%nat /\ requests !! 1%nat = Some packing /\
        contract_callable packing = "get_tx_data") /\
     kwargs request !! "to_address" =
       Some (VStr (multisend_address (params ctx))) /\
     kwargs request !! "value" = Some (VInt 0) /\
     kwargs request !! "operation" =
       Some (VInt (SafeOperation.value SafeOperation.DELEGATE_CALL))).
Proof.
  intros requests. subst requests. split.
  - intros request Hin Hcallable.
    batched_request_cases w ctx Hin;
      rewrite ?elem_of_cons, elem_of_nil in Hin;
      repeat (destruct Hin as [-> | Hin]); try done.
    + eexists _, _. split; [apply multisend_request_multi_send_txs |].
      repeat split; try reflexivity. by eexists.
    + eexists _, _. split; [apply multisend_request_multi_send_txs |].
      repeat split; try reflexivity. by eexists.
  - intros i request Hi Hcallable.
    batched_request_cases w ctx Hi.
    + destruct i as [| i]; [| done]. by injection Hi as <-.
    + destruct i as [| [| i]]; [| | done]; by injection Hi as <-.
    + destruct i as [| [| [| i]]]; [| | | done]; injection Hi as <-; try done.
      split; [by eexists |]. repeat split; reflexivity.
Qed.

(** C9: on the batched path, the first sub-transaction handed to the
    multisend adapter is the native transfer: its value is exactly 1, it is
    addressed to the configured transfer target, and it has no data field;
    the bet amount does not occur in it.  The value is the one
    [get_native_transfer_data] fixes. *)
Theorem native_transfer_sub_transaction (w : World) (ctx : Context) :
  TxPreparationBehaviour.get_native_transfer_data ctx !! VALUE_KEY =
    Some (VInt 1) /\
  TxPreparationBehaviour.get_native_transfer_data ctx !! TO_ADDRESS_KEY =
    Some (VStr (transfer_target_address (params ctx))) /\
  forall (request : ContractApiRequest) (txs : list PyVal),
    request ∈ contract_requests (run w (get_multisend_safe_tx_hash ctx)).1 ->
    kwargs request !! "multi_send_txs" = Some (VList txs) ->
    exists native_transfer : gmap string PyVal,
      txs !! 0%nat = Some (VDict native_transfer) /\
      native_transfer =
        list_to_map
          [("operation", VOperation CALL);
           ("to", VStr (transfer_target_address (params ctx)));
           ("value", VInt 1)] /\
      native_transfer !! "value" = Some (VInt 1) /\
      native_transfer !! "to" =
        Some (VStr (transfer_target_address (params ctx))) /\
      native_transfer !! "data" = None.
Proof.
  split; [reflexivity |]. split; [reflexivity |].
  intros request txs Hin Htxs.
  batched_request_cases w ctx Hin;
    rewrite ?elem_of_cons, elem_of_nil in Hin;
    repeat (destruct Hin as [-> | Hin]); try done;
    rewrite multisend_request_multi_send_txs in Htxs;
    injection Htxs as <-;
    (eexists; split; [reflexivity |]; repeat split; reflexivity).
Qed.

(** C10: on the batched path, every sub-transaction handed to the multisend
    adapter has operation CALL, the bet-placement sub-transaction carries the
    configured bet amount as its value, and the request for the wallet's
    signature hash of the packed batch has operation delegate-call. *)
Theorem multisend_sub_transaction_operations (w : World) (ctx : Context) :
  forall request : ContractApiRequest,
    request ∈ contract_requests (run w (get_multisend_safe_tx_hash ctx)).1 ->
    (forall txs : list PyVal,
       kwargs request !! "multi_send_txs" = Some (VList txs) ->
       (forall tx : PyVal, tx ∈ txs ->
          exists d : gmap string PyVal,
            tx = VDict d /\ d !! "operation" = Some (VOperation CALL)) /\
       (exists place_bet : gmap string PyVal,
          txs !! 1%nat = Some (VDict place_bet) /\
          place_bet !! "to" =
            Some (VStr (betting_contract_address (params ctx))) /\
          place_bet !! "value" = Some (VInt (betting_amount (params ctx))))) /\
    (contract_callable request = "get_raw_safe_transaction_hash" ->
     kwargs request !! "operation" =
       Some (VInt (SafeOperation.value SafeOperation.DELEGATE_CALL))).
Proof.
  intros request Hin. split.
  - intros txs Htxs.
    batched_request_cases w ctx Hin;
      rewrite ?elem_of_cons, elem_of_nil in Hin;
      repeat (destruct Hin as [-> | Hin]); try done;
      rewrite multisend_request_multi_send_txs in Htxs;
      injection Htxs as <-;
      (split;
       [ intros tx Htx; rewrite ?elem_of_cons, elem_of_nil in Htx;
         repeat (destruct Htx as [-> | Htx]); try done;
         by eexists
       | eexists; split; [reflexivity |]; split; reflexivity ]).
  - intros Hcallable.
    batched_request_cases w ctx Hin;
      rewrite ?elem_of_cons, elem_of_nil in Hin;
      repeat (destruct Hin as [-> | Hin]); try done.
Qed.

(** *** Determinism *)

Lemma contract_only_bind {A B} (m : Gen A) (f : A -> Gen B) :
  contract_only m -> (forall a, contract_only (f a)) -> contract_only (m ≫= f).
Proof.
  intros Hm Hf. unfold mbind, Gen_bind.
  induction Hm as [a | e | request k _ IH]; simpl; [done | constructor |].
  constructor. apply IH.
Qed.

Lemma contract_only_eval {A} (o : Outcome A) : contract_only (eval o).
Proof. destruct o; constructor. Qed.

Lemma contract_only_mret {A} (a : A) : contract_only (mret a).
Proof. constructor. Qed.

Lemma contract_only_request (request : ContractApiRequest) :
  contract_only (perform (GetContractApiResponse request)).
Proof. constructor. intros msg. constructor. Qed.

(** Proves [contract_only] of a generator written with the monad's notation. *)
Ltac solve_contract_only :=
  repeat first
    [ apply contract_only_mret
    | apply contract_only_eval
    | apply contract_only_request
    | apply contract_only_bind; [| intros ?]
    | match goal with
      | |- contract_only (if ?b then _ else _) => destruct b
      | |- contract_only (match ?x with _ => _ end) => destruct x
      end ].

Lemma contract_only_get_place_bet_data (ctx : Context) :
  contract_only (get_place_bet_data ctx).
Proof. unfold TxPreparationBehaviour.get_place_bet_data. solve_contract_only. Qed.

Lemma contract_only_build_safe_tx_hash (ctx : Context) (to_address : string)
    (value : option Z) (data : option (list Byte.byte)) (operation : option Z) :
  contract_only (_build_safe_tx_hash ctx to_address value data operation).
Proof.
  unfold TxPreparationBehaviour._build_safe_tx_hash. cbv zeta. solve_contract_only.
Qed.

Lemma contract_only_get_place_bet_safe_tx_hash (ctx : Context) :
  contract_only (get_place_bet_safe_tx_hash ctx).
Proof.
  unfold TxPreparationBehaviour.get_place_bet_safe_tx_hash.
  apply contract_only_bind; [apply contract_only_get_place_bet_data |].
  intros [data_hex |]; [| constructor].
  apply contract_only_bind; [apply contract_only_eval | intros data].
  apply contract_only_bind; [apply contract_only_build_safe_tx_hash |].
  intros ?; constructor.
Qed.

Lemma contract_only_get_multisend_safe_tx_hash (ctx : Context) :
  contract_only (get_multisend_safe_tx_hash ctx).
Proof.
  unfold TxPreparationBehaviour.get_multisend_safe_tx_hash. cbv zeta.
  apply contract_only_bind; [apply contract_only_eval | intros native_value].
  apply contract_only_bind; [apply contract_only_get_place_bet_data |].
  intros [data_hex |]; [| constructor].
  apply contract_only_bind; [apply contract_only_eval | intros place_bet_data].
  apply contract_only_bind; [apply contract_only_request | intros msg].
  case_bool_decide; [constructor |].
  do 3 (apply contract_only_bind; [apply contract_only_eval | intros ?]).
  apply contract_only_bind; [apply contract_only_build_safe_tx_hash |].
  intros ?; constructor.
Qed.

Lemma contract_only_get_tx_hash (ctx : Context) :
  contract_only (get_tx_hash ctx).
Proof.
  unfold TxPreparationBehaviour.get_tx_hash. cbv zeta.
  do 2 (apply contract_only_bind; [apply contract_only_eval | intros ?]).
  case_bool_decide.
  - apply contract_only_bind;
      [apply contract_only_get_place_bet_safe_tx_hash | intros ?; constructor].
  - apply contract_only_bind;
      [apply contract_only_get_multisend_safe_tx_hash | intros ?; constructor].
Qed.

(** A generator that only asks the contract interface runs the same against
    two outsides with the same contract interface. *)
Lemma run_contract_only {A} (w1 w2 : World) (g : Gen A) :
  contract_only g ->
  (forall request,
     w1 _ (GetContractApiResponse request) =
     w2 _ (GetContractApiResponse request)) ->
  run w1 g = run w2 g.
Proof.
  intros Hg Hw. induction Hg as [a | e | request k _ IH]; [done | done |].
  simpl. by rewrite Hw, IH.
Qed.

Local Notation async_act :=
  (TxPreparationBehaviour.async_act hash_payload_to_hex auto_behaviour_id).

(** The stage sends the hash it computed, and nothing if computing it raised. *)
Lemma run_tx_preparation_async_act (w : World) (ctx : Context) :
  run w (async_act ctx) =
    match (run w (get_tx_hash ctx)).2 with
    | Returned tx_hash =>
        ((run w (get_tx_hash ctx)).1 ++
           [Did (SendA2ATransaction (PTxPreparation
              {| TxPreparationPayload.sender := agent_address ctx;
                 TxPreparationPayload.tx_submitter := auto_behaviour_id;
                 TxPreparationPayload.tx_hash := tx_hash |}));
            Did WaitUntilRoundEnd; Did SetDone],
         Returned tt)
    | Raised e => ((run w (get_tx_hash ctx)).1, Raised e)
    end.
Proof.
  unfold TxPreparationBehaviour.async_act. cbv zeta.
  rewrite run_bind. destruct (run w (get_tx_hash ctx)).2 as [tx_hash | e]; [| done].
  rewrite !run_perform_bind, run_perform. cbn [fst snd].
  by destruct (w unit SetDone).
Qed.

Lemma submitted_payloads_contract_only {A} (w : World) (g : Gen A) :
  contract_only g -> submitted_payloads (run w g).1 = [].
Proof. intros Hg. induction Hg as [a | e | request k _ IH]; [done | done | apply IH]. Qed.

(** C7: two executions of TxPreparation, on replicas that may differ in
    everything local to them (the agent's address, the answers of the outside
    to anything but contract requests) but have the same configuration, the
    same synchronized data and timestamp and a contract interface that gives
    the same answers, compute the same transaction hash in the same way, and
    the payloads they send carry the same hash. *)
Theorem get_tx_hash_deterministic (w1 w2 : World) (ctx1 ctx2 : Context) :
  params ctx1 = params ctx2 ->
  synchronized_data ctx1 = synchronized_data ctx2 ->
  get_sync_timestamp ctx1 = get_sync_timestamp ctx2 ->
  (forall request,
     w1 _ (GetContractApiResponse request) =
     w2 _ (GetContractApiResponse request)) ->
  run w1 (get_tx_hash ctx1) = run w2 (get_tx_hash ctx2) /\
  (forall p1 p2 : Payload,
     p1 ∈ submitted_payloads (run w1 (async_act ctx1)).1 ->
     p2 ∈ submitted_payloads (run w2 (async_act ctx2)).1 ->
     exists t1 t2 : TxPreparationPayload.t,
       p1 = PTxPreparation t1 /\ p2 = PTxPreparation t2 /\
       TxPreparationPayload.tx_hash t1 = TxPreparationPayload.tx_hash t2).
Proof.
  intros Hparams Hdata Htime Hw.
  assert (get_tx_hash ctx1 = get_tx_hash ctx2) as Hsame.
  { destruct ctx1, ctx2. unfold get_sync_timestamp in Htime.
    simpl in Hparams, Hdata, Htime. by subst. }
  assert (run w1 (get_tx_hash ctx1) = run w2 (get_tx_hash ctx2)) as Hrun.
  { rewrite Hsame. by apply run_contract_only, Hw; apply contract_only_get_tx_hash. }
  split; [done |].
  intros p1 p2. rewrite !run_tx_preparation_async_act, <- Hrun.
  pose proof (submitted_payloads_contract_only w1 _
                (contract_only_get_tx_hash ctx1)) as Hnone.
  destruct (run w1 (get_tx_hash ctx1)) as [trace [tx_hash | e]]; cbn [fst snd] in *.
  - unfold submitted_payloads in *. rewrite !omap_app, Hnone. cbn.
    rewrite !list_elem_of_singleton. intros -> ->. by eexists _, _.
  - rewrite Hnone. by intros ?%elem_of_nil.
Qed.

End TxPreparation.

(** ** The DataPull stage *)

Lemma run_get_has_placed_bet (w : World) (ctx : Context) :
  run w (DataPullBehaviour.get_has_placed_bet ctx) =
    ([Did (GetContractApiResponse (DataPullBehaviour.has_placed_bet_request ctx))],
     let response_msg :=
       w _ (GetContractApiResponse (DataPullBehaviour.has_placed_bet_request ctx)) in
     Returned
       (if bool_decide (performative response_msg ≠ RAW_TRANSACTION) then VNone
        else dict_get (body response_msg) "data")).
Proof.
  unfold DataPullBehaviour.get_has_placed_bet.
  rewrite run_perform_bind. cbv zeta.
  case_bool_decide; [done |].
  by destruct (dict_get _ _).
Qed.

(** The sub-step gives no result on an answer with the wrong performative or
    without the data key. *)
Lemma run_get_has_placed_bet_failed (w : World) (ctx : Context) :
  let response_msg :=
    w _ (GetContractApiResponse (DataPullBehaviour.has_placed_bet_request ctx)) in
  performative response_msg ≠ RAW_TRANSACTION \/
    body response_msg !! "data" = None ->
  (run w (DataPullBehaviour.get_has_placed_bet ctx)).2 = Returned VNone.
Proof.
  intros response_msg H. rewrite run_get_has_placed_bet. fold response_msg.
  cbv zeta. cbn [snd]. case_bool_decide as Hp; [done |].
  destruct H as [H | H]; [done |]. unfold dict_get. by rewrite H.
Qed.

(** The run of the stage: the four requests, then either the exception of
    building the payload or the payload sent and the round awaited. *)
Lemma run_data_pull_async_act (w : World) (ctx : Context) :
  let specs := get_spec (betting_specs ctx) in
  let response := process_response (betting_specs ctx) (w _ (GetHttpResponse specs)) in
  let filename := w _ Mkdtemp +:+ "/" +:+ METADATA_FILENAME in
  let betting_ipfs_hash := w _ (SendToIpfs filename response JSON) in
  let requests :=
    [Did (GetHttpResponse specs); Did Mkdtemp;
     Did (SendToIpfs filename response JSON);
     Did (GetContractApiResponse (DataPullBehaviour.has_placed_bet_request ctx))] in
  run w (DataPullBehaviour.async_act ctx) =
    match (run w (DataPullBehaviour.get_has_placed_bet ctx)).2 with
    | Raised e => (requests, Raised e)
    | Returned has_placed_bet =>
        match py_getitem_str response "result" with
        | Raised e => (requests, Raised e)
        | Returned betting_result =>
            match py_getitem_0 has_placed_bet with
            | Raised e => (requests, Raised e)
            | Returned has_placed_bet_0 =>
                (requests ++
                   [Did (SendA2ATransaction (PDataPull
                      {| DataPullPayload.sender := agent_address ctx;
                         DataPullPayload.betting_result := betting_result;
                         DataPullPayload.betting_ipfs_hash := betting_ipfs_hash;
                         DataPullPayload.has_placed_bet := has_placed_bet_0 |}));
                    Did WaitUntilRoundEnd; Did SetDone],
                 Returned tt)
            end
        end
    end.
Proof.
  intros specs response filename betting_ipfs_hash requests.
  unfold DataPullBehaviour.async_act. cbv zeta.
  unfold DataPullBehaviour.get_betting_result_specs,
    DataPullBehaviour.send_betting_result_to_ipfs, metadata_filepath.
  cbv zeta. fold specs.
  rewrite run_bind, run_perform_bind, run_mret. cbn [fst snd app].
  fold response.
  rewrite run_bind, run_bind, run_perform_bind, run_mret. cbn [fst snd app].
  fold filename.
  rewrite run_perform_bind, run_mret. cbn [fst snd app]. fold betting_ipfs_hash.
  rewrite run_bind, run_get_has_placed_bet. cbn [fst snd app].
  rewrite run_eval_bind.
  destruct (py_getitem_str response "result") as [betting_result | e]; [| done].
  rewrite run_eval_bind.
  destruct (py_getitem_0 _) as [has_placed_bet_0 | e]; [| done].
  rewrite !run_perform_bind, run_perform. cbn [fst snd].
  by destruct (w unit SetDone).
Qed.

(** A failed read of the bet-placement flag ends the stage with an exception:
    the payload is built from [has_placed_bet[0]], and the sub-step gave
    [None]. *)
Lemma data_pull_async_act_failed_read (w : World) (ctx : Context) :
  let response_msg :=
    w _ (GetContractApiResponse (DataPullBehaviour.has_placed_bet_request ctx)) in
  performative response_msg ≠ RAW_TRANSACTION \/
    body response_msg !! "data" = None ->
  (exists e, (run w (DataPullBehaviour.async_act ctx)).2 = Raised e) /\
  submitted_payloads (run w (DataPullBehaviour.async_act ctx)).1 = [].
Proof.
  intros response_msg H.
  pose proof (run_get_has_placed_bet_failed w ctx H) as Hnone.
  rewrite run_data_pull_async_act. cbv zeta. rewrite Hnone.
  destruct (py_getitem_str _ _) as [betting_result | e]; cbn [py_getitem_0 fst snd];
    split; try done; by eexists.
Qed.

(** C6: at an answer with the wrong performative, and at one without the
    data key, the sub-step yields [None], and then the stage raises
    [TypeError] while building its payload: no payload is sent. *)
Theorem data_pull_failed_read_raises :
  ((run sample_outside_failed_read
      (DataPullBehaviour.get_has_placed_bet sample_ctx)).2 = Returned VNone /\
   (run sample_outside_failed_read
      (DataPullBehaviour.async_act sample_ctx)).2 = Raised TypeError /\
   submitted_payloads
     (run sample_outside_failed_read
        (DataPullBehaviour.async_act sample_ctx)).1 = []) /\
  ((run sample_outside_read_without_data
      (DataPullBehaviour.get_has_placed_bet sample_ctx)).2 = Returned VNone /\
   (run sample_outside_read_without_data
      (DataPullBehaviour.async_act sample_ctx)).2 = Raised TypeError /\
   submitted_payloads
     (run sample_outside_read_without_data
        (DataPullBehaviour.async_act sample_ctx)).1 = []).
Proof. repeat split; reflexivity. Qed.

(** C8: when the storage call returns no hash, the stage goes on: it reads
    the bet-placement flag, and when the payload can be built it sends it
    with no content hash, the other fields being the result of the API and
    the flag read, and ends normally. *)
Theorem data_pull_async_act_ipfs_failure (w : World) (ctx : Context) :
  let response :=
    process_response (betting_specs ctx)
      (w _ (GetHttpResponse (get_spec (betting_specs ctx)))) in
  let trace := (run w (DataPullBehaviour.async_act ctx)).1 in
  (forall filename, w _ (SendToIpfs filename response JSON) = None) ->
  (run w (DataPullBehaviour.send_betting_result_to_ipfs ctx response)).2 =
    Returned None /\
  DataPullBehaviour.has_placed_bet_request ctx ∈ contract_requests trace /\
  (forall has_placed_bet betting_result has_placed_bet_0 : PyVal,
     (run w (DataPullBehaviour.get_has_placed_bet ctx)).2 =
       Returned has_placed_bet ->
     py_getitem_str response "result" = Returned betting_result ->
     py_getitem_0 has_placed_bet = Returned has_placed_bet_0 ->
     (run w (DataPullBehaviour.async_act ctx)).2 = Returned tt /\
     submitted_payloads trace =
       [PDataPull
          {| DataPullPayload.sender := agent_address ctx;
             DataPullPayload.betting_result := betting_result;
             DataPullPayload.betting_ipfs_hash := None;
             DataPullPayload.has_placed_bet := has_placed_bet_0 |}]).
Proof.
  intros response trace Hipfs. subst trace. split; [| split].
  - rewrite <- (Hipfs (w _ Mkdtemp +:+ "/" +:+ METADATA_FILENAME)). reflexivity.
  - rewrite run_data_pull_async_act. cbv zeta. fold response.
    destruct (run w (DataPullBehaviour.get_has_placed_bet ctx)).2
      as [has_placed_bet | e]; [| set_solver].
    destruct (py_getitem_str _ _) as [betting_result | e]; [| set_solver].
    destruct (py_getitem_0 _) as [has_placed_bet_0 | e]; set_solver.
  - intros has_placed_bet betting_result has_placed_bet_0 Hflag Hresult Hitem.
    rewrite run_data_pull_async_act. cbv zeta. fold response.
    rewrite Hflag, Hresult, Hitem, Hipfs. done.
Qed.

(** ** The properties on the sample agent *)

(** The sample agent decides to transact. *)
Lemma get_next_event_decision_witness :
  (betting_result (synchronized_data sample_ctx) = true /\
   has_placed_bet (synchronized_data sample_ctx) = false) /\
  DecisionMakingBehaviour.get_next_event sample_ctx = TRANSACT.
Proof.
  split; [split; reflexivity |].
  apply (proj1 get_next_event_decision sample_ctx). split; reflexivity.
Defined.

(** A hash of the right length goes through; one that is too short gives no
    hash. *)
Lemma build_safe_tx_hash_length_witness :
  (String.length (str_slice_from 2 sample_raw_hash) = 64%nat /\
   (run sample_outside
      (TxPreparationBehaviour._build_safe_tx_hash sample_hash_payload_to_hex
         sample_ctx (betting_contract_address sample_params) (Some 1000)
         (Some []) None)).2 =
     Returned
       (Some ("00112233445566778899aabbccddeeff00112233445566778899aabbccddeeff"
              +:+ "1000" +:+ "0"))) /\
  (String.length (str_slice_from 2 "0x00112233") ≠ 64%nat /\
   (run sample_outside_short_hash
      (TxPreparationBehaviour._build_safe_tx_hash sample_hash_payload_to_hex
         sample_ctx (betting_contract_address sample_params) (Some 1000)
         (Some []) None)).2 = Returned None).
Proof.
  split.
  - split; [reflexivity |].
    destruct (build_safe_tx_hash_length sample_hash_payload_to_hex
                sample_outside sample_ctx
                (betting_contract_address sample_params) (Some 1000) (Some [])
                None sample_raw_hash eq_refl eq_refl) as [_ H].
    rewrite H by reflexivity. reflexivity.
  - split; [by vm_compute |].
    destruct (build_safe_tx_hash_length sample_hash_payload_to_hex
                sample_outside_short_hash sample_ctx
                (betting_contract_address sample_params) (Some 1000) (Some [])
                None "0x00112233" eq_refl eq_refl) as [H _].
    apply H. by vm_compute.
Defined.

(** A timestamp that ends in 3 takes the single path, one whose integer part
    ends in 8 the batched path. *)
Lemma get_tx_hash_selector_witness :
  (0 <= int_of_float (get_sync_timestamp sample_ctx) /\
   run sample_outside
     (TxPreparationBehaviour.get_tx_hash sample_hash_payload_to_hex sample_ctx) =
   run sample_outside
     (TxPreparationBehaviour.get_place_bet_safe_tx_hash
        sample_hash_payload_to_hex sample_ctx)) /\
  (0 <= int_of_float (get_sync_timestamp sample_batched_ctx) /\
   run sample_outside
     (TxPreparationBehaviour.get_tx_hash sample_hash_payload_to_hex
        sample_batched_ctx) =
   run sample_outside
     (TxPreparationBehaviour.get_multisend_safe_tx_hash
        sample_hash_payload_to_hex sample_batched_ctx)).
Proof.
  split.
  - assert (0 <= int_of_float (get_sync_timestamp sample_ctx)) as Hnow
      by (by vm_compute).
    split; [exact Hnow |].
    destruct (get_tx_hash_selector sample_hash_payload_to_hex sample_ctx
                sample_outside) as (d & _ & _ & Hd & _ & ->).
    specialize (Hd Hnow). vm_compute in Hd. subst d. reflexivity.
  - assert (0 <= int_of_float (get_sync_timestamp sample_batched_ctx)) as Hnow
      by (by vm_compute).
    split; [exact Hnow |].
    destruct (get_tx_hash_selector sample_hash_payload_to_hex sample_batched_ctx
                sample_outside) as (d & _ & _ & Hd & _ & ->).
    specialize (Hd Hnow). vm_compute in Hd. subst d. reflexivity.
Defined.

(** The single path of the sample agent asks the wallet with the betting
    contract, the bet amount, the encoded call, gas 0 and plain call. *)
Lemma get_place_bet_safe_tx_hash_request_witness :
  (performative
     (sample_outside _
        (GetContractApiResponse
           (TxPreparationBehaviour.place_bet_request sample_ctx))) =
     RAW_TRANSACTION /\
   body
     (sample_outside _
        (GetContractApiResponse
           (TxPreparationBehaviour.place_bet_request sample_ctx)))
     !! "data" = Some (VBytes [Byte.xa9; Byte.x05; Byte.x9c; Byte.xbb])) /\
  exists request : ContractApiRequest,
    contract_requests
      (run sample_outside
         (TxPreparationBehaviour.get_place_bet_safe_tx_hash
            sample_hash_payload_to_hex sample_ctx)).1 =
      [TxPreparationBehaviour.place_bet_request sample_ctx; request] /\
    kwargs request !! "to_address" =
      Some (VStr "0x5FbDB2315678afecb367f032d93F642f64180aa3") /\
    kwargs request !! "value" = Some (VInt 1000) /\
    kwargs request !! "data" =
      Some (VBytes [Byte.xa9; Byte.x05; Byte.x9c; Byte.xbb]) /\
    kwargs request !! "safe_tx_gas" = Some (VInt 0) /\
    kwargs request !! "operation" = Some (VInt 0).
Proof.
  split; [split; reflexivity |].
  destruct (proj2 (get_place_bet_safe_tx_hash_request sample_hash_payload_to_hex
                     sample_outside sample_ctx)
              [Byte.xa9; Byte.x05; Byte.x9c; Byte.xbb] eq_refl eq_refl)
    as (request & Hrequests & _ & _ & _ & _ & Hto & Hvalue & Hdata & Hgas & Hop).
  exists request. repeat split; assumption.
Defined.

(** The batched path of the sample agent: the third request is the wallet's,
    with value 0 and delegate-call, right after the packing of the two
    sub-transactions. *)
Lemma get_multisend_safe_tx_hash_composition_witness :
  (contract_requests
     (run sample_outside
        (TxPreparationBehaviour.get_multisend_safe_tx_hash
           sample_hash_payload_to_hex sample_batched_ctx)).1 !! 2%nat =
     Some (TxPreparationBehaviour.safe_tx_hash_request sample_batched_ctx
             (multisend_address sample_params) 0
             [Byte.x8d; Byte.x80; Byte.xff; Byte.x0a; Byte.x00] 1) /\
   contract_callable
     (TxPreparationBehaviour.safe_tx_hash_request sample_batched_ctx
        (multisend_address sample_params) 0
        [Byte.x8d; Byte.x80; Byte.xff; Byte.x0a; Byte.x00] 1) =
     "get_raw_safe_transaction_hash") /\
  kwargs
    (TxPreparationBehaviour.safe_tx_hash_request sample_batched_ctx
       (multisend_address sample_params) 0
       [Byte.x8d; Byte.x80; Byte.xff; Byte.x0a; Byte.x00] 1) !! "value" =
    Some (VInt 0) /\
  kwargs
    (TxPreparationBehaviour.safe_tx_hash_request sample_batched_ctx
       (multisend_address sample_params) 0
       [Byte.x8d; Byte.x80; Byte.xff; Byte.x0a; Byte.x00] 1) !! "operation" =
    Some (VInt (SafeOperation.value SafeOperation.DELEGATE_CALL)).
Proof.
  split; [split; reflexivity |].
  destruct (proj2 (get_multisend_safe_tx_hash_composition
                     sample_hash_payload_to_hex sample_outside
                     sample_batched_ctx)
              2%nat _ eq_refl eq_refl) as (_ & _ & Hvalue & Hop).
  split; assumption.
Defined.

(** The first sub-transaction of the sample agent's batch. *)
Lemma native_transfer_sub_transaction_witness :
  exists (request : ContractApiRequest) (txs : list PyVal),
    (request ∈ contract_requests
       (run sample_outside
          (TxPreparationBehaviour.get_multisend_safe_tx_hash
             sample_hash_payload_to_hex sample_batched_ctx)).1 /\
     kwargs request !! "multi_send_txs" = Some (VList txs)) /\
    exists native_transfer : gmap string PyVal,
      txs !! 0%nat = Some (VDict native_transfer) /\
      native_transfer !! "value" = Some (VInt 1) /\
      native_transfer !! "to" =
        Some (VStr "0x70997970C51812dc3A010C7d01b50e0d17dc79C8") /\
      native_transfer !! "data" = None.
Proof.
  eexists _, _.
  assert (contract_requests
            (run sample_outside
               (TxPreparationBehaviour.get_multisend_safe_tx_hash
                  sample_hash_payload_to_hex sample_batched_ctx)).1 !! 1%nat =
          Some (TxPreparationBehaviour.multisend_request sample_batched_ctx
                  [VDict (list_to_map
                     [("operation", VOperation CALL);
                      ("to", VStr (transfer_target_address sample_params));
                      ("value", VInt 1)]);
                   VDict (list_to_map
                     [("operation", VOperation CALL);
                      ("to", VStr (betting_contract_address sample_params));
                      ("value", VInt (betting_amount sample_params));
                      ("data", VBytes [Byte.xa9; Byte.x05; Byte.x9c; Byte.xbb])])]))
    as Hlookup by reflexivity.
  apply list_elem_of_lookup_2 in Hlookup.
  split; [split; [exact Hlookup | reflexivity] |].
  destruct (proj2 (proj2 (native_transfer_sub_transaction
                            sample_hash_payload_to_hex sample_outside
                            sample_batched_ctx)) _ _ Hlookup eq_refl)
    as (native_transfer & H0 & _ & Hvalue & Hto & Hdata).
  exists native_transfer. repeat split; assumption.
Defined.

(** The operations in the sample agent's batch. *)
Lemma multisend_sub_transaction_operations_witness :
  exists (request : ContractApiRequest) (txs : list PyVal),
    (request ∈ contract_requests
       (run sample_outside
          (TxPreparationBehaviour.get_multisend_safe_tx_hash
             sample_hash_payload_to_hex sample_batched_ctx)).1 /\
     kwargs request !! "multi_send_txs" = Some (VList txs)) /\
    (forall tx : PyVal, tx ∈ txs ->
       exists d : gmap string PyVal,
         tx = VDict d /\ d !! "operation" = Some (VOperation CALL)) /\
    exists place_bet : gmap string PyVal,
      txs !! 1%nat = Some (VDict place_bet) /\
      place_bet !! "value" = Some (VInt 1000).
Proof.
  eexists _, _.
  assert (contract_requests
            (run sample_outside
               (TxPreparationBehaviour.get_multisend_safe_tx_hash
                  sample_hash_payload_to_hex sample_batched_ctx)).1 !! 1%nat =
          Some (TxPreparationBehaviour.multisend_request sample_batched_ctx
                  [VDict (list_to_map
                     [("operation", VOperation CALL);
                      ("to", VStr (transfer_target_address sample_params));
                      ("value", VInt 1)]);
                   VDict (list_to_map
                     [("operation", VOperation CALL);
                      ("to", VStr (betting_contract_address sample_params));
                      ("value", VInt (betting_amount sample_params));
                      ("data", VBytes [Byte.xa9; Byte.x05; Byte.x9c; Byte.xbb])])]))
    as Hlookup by reflexivity.
  apply list_elem_of_lookup_2 in Hlookup.
  split; [split; [exact Hlookup | reflexivity] |].
  destruct (proj1 (multisend_sub_transaction_operations
                     sample_hash_payload_to_hex sample_outside
                     sample_batched_ctx _ Hlookup) _ eq_refl)
    as (Hall & place_bet & H1 & _ & Hvalue).
  split; [exact Hall |]. exists place_bet. split; assumption.
Defined.

(** Two replicas with different addresses and different storage answers
    compute the same hash. *)
Lemma get_tx_hash_deterministic_witness :
  (params sample_ctx = params sample_other_ctx /\
   synchronized_data sample_ctx = synchronized_data sample_other_ctx /\
   get_sync_timestamp sample_ctx = get_sync_timestamp sample_other_ctx /\
   agent_address sample_ctx ≠ agent_address sample_other_ctx /\
   (forall request,
      sample_outside _ (GetContractApiResponse request) =
      sample_outside_without_ipfs _ (GetContractApiResponse request))) /\
  run sample_outside
    (TxPreparationBehaviour.get_tx_hash sample_hash_payload_to_hex sample_ctx) =
  run sample_outside_without_ipfs
    (TxPreparationBehaviour.get_tx_hash sample_hash_payload_to_hex
       sample_other_ctx).
Proof.
  split; [repeat split; done |].
  apply (proj1 (get_tx_hash_deterministic sample_hash_payload_to_hex
                  "tx_preparation_behaviour" sample_outside
                  sample_outside_without_ipfs sample_ctx sample_other_ctx
                  eq_refl eq_refl eq_refl (fun _ => eq_refl))).
Defined.

(** Without a content hash the sample agent still sends its payload. *)
Lemma data_pull_async_act_ipfs_failure_witness :
  (forall filename,
     sample_outside_without_ipfs _
       (SendToIpfs filename
          (process_response (betting_specs sample_ctx)
             (sample_outside_without_ipfs _
                (GetHttpResponse (get_spec (betting_specs sample_ctx)))))
          JSON) = None) /\
  (run sample_outside_without_ipfs (DataPullBehaviour.async_act sample_ctx)).2 =
    Returned tt /\
  submitted_payloads
    (run sample_outside_without_ipfs (DataPullBehaviour.async_act sample_ctx)).1 =
    [PDataPull
       {| DataPullPayload.sender := "agent-0";
          DataPullPayload.betting_result := VBool true;
          DataPullPayload.betting_ipfs_hash := None;
          DataPullPayload.has_placed_bet := VBool false |}].
Proof.
  split; [done |].
  apply (proj2 (proj2 (data_pull_async_act_ipfs_failure
                         sample_outside_without_ipfs sample_ctx
                         (fun _ => eq_refl)))
           (VList [VBool false]) (VBool true) (VBool false));
    reflexivity.
Defined.

(** * Further properties of the behaviours *)

(** ** DataPull: what is asked, and when no payload is built *)

(** X1: whatever the outside answers, DataPull asks the API, creates a
    temporary directory, stores the processed answer of the API under
    [metadata.json] in that directory and reads the bet-placement flag, in
    this order and each once; nothing else happens before the payload, and
    a failed step never makes the stage skip a later request. *)
Theorem data_pull_requests_in_order (w : World) (ctx : Context) :
  let specs := get_spec (betting_specs ctx) in
  let response := process_response (betting_specs ctx) (w _ (GetHttpResponse specs)) in
  let filename := w _ Mkdtemp +:+ "/metadata.json" in
  let requests :=
    [Did (GetHttpResponse specs); Did Mkdtemp;
     Did (SendToIpfs filename response JSON);
     Did (GetContractApiResponse (DataPullBehaviour.has_placed_bet_request ctx))] in
  let trace := (run w (DataPullBehaviour.async_act ctx)).1 in
  (trace = requests \/
   exists p : DataPullPayload.t,
     trace = requests ++
       [Did (SendA2ATransaction (PDataPull p)); Did WaitUntilRoundEnd; Did SetDone]) /\
  contract_requests trace = [DataPullBehaviour.has_placed_bet_request ctx].
Proof.
  intros specs response filename requests trace. subst trace.
  rewrite run_data_pull_async_act. cbv zeta.
  fold specs response. change METADATA_FILENAME with "metadata.json".
  fold filename requests.
  destruct (run w (DataPullBehaviour.get_has_placed_bet ctx)).2
    as [flag | e]; [| by split; [left |]].
  destruct (py_getitem_str response "result") as [betting_result | e];
    [| by split; [left |]].
  destruct (py_getitem_0 flag) as [flag_0 | e]; [| by split; [left |]].
  split; [right; by eexists | done].
Qed.

(** X2: when the processed answer of the API is not a dict, building the
    payload raises [TypeError]; when it is a dict without the key [result],
    it raises [KeyError].  Either way the four requests were made, the
    unusable answer was stored, and no payload is sent. *)
Theorem data_pull_oracle_failure (w : World) (ctx : Context) :
  let specs := get_spec (betting_specs ctx) in
  let response := process_response (betting_specs ctx) (w _ (GetHttpResponse specs)) in
  let filename := w _ Mkdtemp +:+ "/metadata.json" in
  let requests :=
    [Did (GetHttpResponse specs); Did Mkdtemp;
     Did (SendToIpfs filename response JSON);
     Did (GetContractApiResponse (DataPullBehaviour.has_placed_bet_request ctx))] in
  ((forall d, response ≠ VDict d) ->
   run w (DataPullBehaviour.async_act ctx) = (requests, Raised TypeError)) /\
  (forall d : gmap string PyVal,
     response = VDict d -> d !! "result" = None ->
     run w (DataPullBehaviour.async_act ctx) = (requests, Raised KeyError)).
Proof.
  intros specs response filename requests.
  pose proof (run_data_pull_async_act w ctx) as Hrun. cbv zeta in Hrun.
  rewrite run_get_has_placed_bet in Hrun. cbn [snd] in Hrun.
  fold specs response in Hrun. split.
  - intros Hdict. rewrite Hrun.
    destruct response; try reflexivity. by destruct (Hdict d).
  - intros d Hresponse Hd. rewrite Hrun.
    assert (py_getitem_str response "result" = Raised KeyError) as ->; [| done].
    rewrite Hresponse. unfold py_getitem_str, dict_getitem. by rewrite Hd.
Qed.

Lemma data_pull_oracle_failure_witness :
  (forall d,
     process_response (betting_specs sample_ctx_failed_fetch)
       (sample_outside _
          (GetHttpResponse (get_spec (betting_specs sample_ctx_failed_fetch))))
     ≠ VDict d) /\
  (run sample_outside (DataPullBehaviour.async_act sample_ctx_failed_fetch)).2 =
    Raised TypeError /\
  submitted_payloads
    (run sample_outside (DataPullBehaviour.async_act sample_ctx_failed_fetch)).1 = [].
Proof.
  assert (forall d,
            process_response (betting_specs sample_ctx_failed_fetch)
              (sample_outside _
                 (GetHttpResponse (get_spec (betting_specs sample_ctx_failed_fetch))))
            ≠ VDict d) as Hnone by done.
  split; [exact Hnone |].
  rewrite (proj1 (data_pull_oracle_failure sample_outside sample_ctx_failed_fetch)
             Hnone).
  split; reflexivity.
Defined.

(** X3: the payload carries the first element of what the contract's
    [hasPlacedBet] returned, as the wrapper passes it on under [data]: when
    the contract returns a sequence the payload has its first element, and
    when it returns a bare boolean the stage raises [TypeError] and sends
    nothing. *)
Theorem data_pull_flag_of_contract (w : World) (ctx : Context)
    (contract_instance : ContractInstance) (betting_result : PyVal) :
  let response :=
    process_response (betting_specs ctx)
      (w _ (GetHttpResponse (get_spec (betting_specs ctx)))) in
  let flag :=
    functions_call contract_instance "hasPlacedBet"
      [VStr (transfer_target_address (params ctx)); VStr (match_key (params ctx))] in
  let result := run w (DataPullBehaviour.async_act ctx) in
  w _ (GetContractApiResponse (DataPullBehaviour.has_placed_bet_request ctx)) =
    {| performative := RAW_TRANSACTION;
       body := BettingContract.has_placed_bet contract_instance
                 (transfer_target_address (params ctx)) (match_key (params ctx)) |} ->
  py_getitem_str response "result" = Returned betting_result ->
  (forall (first : PyVal) (others : list PyVal),
     flag = VList (first :: others) ->
     result.2 = Returned tt /\
     submitted_payloads result.1 =
       [PDataPull
          {| DataPullPayload.sender := agent_address ctx;
             DataPullPayload.betting_result := betting_result;
             DataPullPayload.betting_ipfs_hash :=
               w _ (SendToIpfs (w _ Mkdtemp +:+ "/metadata.json") response JSON);
             DataPullPayload.has_placed_bet := first |}]) /\
  (forall b : bool,
     flag = VBool b ->
     result.2 = Raised TypeError /\ submitted_payloads result.1 = []).
Proof.
  intros response flag result Hanswer Hresult. subst result.
  rewrite run_data_pull_async_act, run_get_has_placed_bet. cbv zeta. cbn [snd].
  fold response. rewrite Hanswer, Hresult. cbn [performative body].
  rewrite bool_decide_eq_false_2 by (by intros []).
  unfold BettingContract.has_placed_bet, dict_get. cbv zeta. fold flag.
  rewrite lookup_singleton_eq. cbn [default].
  split.
  - intros first others ->. done.
  - intros b ->. done.
Qed.

Lemma data_pull_flag_of_contract_witness :
  (sample_outside_bare_flag _
     (GetContractApiResponse (DataPullBehaviour.has_placed_bet_request sample_ctx)) =
     {| performative := RAW_TRANSACTION;
        body := BettingContract.has_placed_bet sample_contract_instance
                  (transfer_target_address (params sample_ctx))
                  (match_key (params sample_ctx)) |} /\
   (run sample_outside_bare_flag (DataPullBehaviour.async_act sample_ctx)).2 =
     Raised TypeError) /\
  (sample_outside_pair_flag _
     (GetContractApiResponse (DataPullBehaviour.has_placed_bet_request sample_ctx)) =
     {| performative := RAW_TRANSACTION;
        body := BettingContract.has_placed_bet sample_contract_instance_pair
                  (transfer_target_address (params sample_ctx))
                  (match_key (params sample_ctx)) |} /\
   (run sample_outside_pair_flag (DataPullBehaviour.async_act sample_ctx)).2 =
     Returned tt).
Proof.
  split; (split; [reflexivity |]).
  - apply (proj2 (data_pull_flag_of_contract sample_outside_bare_flag sample_ctx
                    sample_contract_instance (VBool true) eq_refl eq_refl)
             false eq_refl).
  - apply (proj1 (data_pull_flag_of_contract sample_outside_pair_flag sample_ctx
                    sample_contract_instance_pair (VBool true) eq_refl eq_refl)
             (VBool true) [VInt 7] eq_refl).
Defined.

(** ** The contract wrapper: decoding the encoded call *)

Lemma bytes_fromhex_hex_odd (bs : list Byte.byte) (c : ascii) :
  is_space c = false ->
  bytes_fromhex (bytes_hex bs +:+ String c EmptyString) = Raised ValueError.
Proof.
  intros Hc. induction bs as [| b bs IH].
  - change (bytes_fromhex (String c EmptyString) = Raised ValueError).
    cbn [bytes_fromhex]. by rewrite Hc.
  - change (bytes_fromhex
              (String (hex_digit (Byte.to_N b / 16)%N)
                 (String (hex_digit (Byte.to_N b mod 16)%N)
                    (bytes_hex bs +:+ String c EmptyString))) =
            Raised ValueError).
    by rewrite bytes_fromhex_hex_step, IH.
Qed.

Lemma str_slice_from_short (n : nat) (s : string) :
  (String.length s <= n)%nat -> str_slice_from n s = EmptyString.
Proof.
  revert s. induction n as [| n IH]; intros [| c s]; simpl; try done; try lia.
  intros H. apply IH. lia.
Qed.

(** X10: [build_place_bet_tx] drops the first two characters of the encoded
    call without looking at them and decodes the rest: an encoding that is a
    marker and the hex of [bs] gives the body [{data: bs}]; an encoding of at
    most two characters gives empty call data, not an error; a hex digit too
    many raises [ValueError]. *)
Theorem build_place_bet_tx_decodes (contract_instance : ContractInstance)
    (bettor match_key : string) :
  let data :=
    encodeABI contract_instance "placeBet" [VStr bettor; VStr match_key] in
  let result :=
    BettingContract.build_place_bet_tx contract_instance bettor match_key in
  (forall (c1 c2 : ascii) (bs : list Byte.byte),
     data = String c1 (String c2 (bytes_hex bs)) ->
     result = Returned {[ "data" := VBytes bs ]}) /\
  ((String.length data <= 2)%nat ->
   result = Returned {[ "data" := VBytes [] ]}) /\
  (forall (c1 c2 c : ascii) (bs : list Byte.byte),
     data = String c1 (String c2 (bytes_hex bs +:+ String c EmptyString)) ->
     is_space c = false ->
     result = Raised ValueError).
Proof.
  intros data result. subst result.
  unfold BettingContract.build_place_bet_tx. cbv zeta. fold data.
  split; [| split].
  - intros c1 c2 bs ->. cbn [str_slice_from]. by rewrite bytes_fromhex_hex.
  - intros Hshort. by rewrite str_slice_from_short.
  - intros c1 c2 c bs -> Hc. cbn [str_slice_from].
    by rewrite bytes_fromhex_hex_odd.
Qed.

Lemma build_place_bet_tx_decodes_witness :
  encodeABI sample_contract_instance "placeBet"
    [VStr (transfer_target_address sample_params); VStr (match_key sample_params)] =
    String "0" (String "x"
      (bytes_hex [Byte.xa9; Byte.x05; Byte.x9c; Byte.xbb])) /\
  BettingContract.build_place_bet_tx sample_contract_instance
    (transfer_target_address sample_params) (match_key sample_params) =
    Returned {[ "data" := VBytes [Byte.xa9; Byte.x05; Byte.x9c; Byte.xbb] ]}.
Proof.
  split; [reflexivity |].
  apply (proj1 (build_place_bet_tx_decodes sample_contract_instance
                  (transfer_target_address sample_params)
                  (match_key sample_params))
           "0"%char "x"%char). reflexivity.
Defined.

(** ** TxPreparation: failures, and what is asked of whom *)

Section TxPreparationFurther.

Variable hash_payload_to_hex :
  PyVal -> Z -> Z -> string -> list Byte.byte -> Z -> Outcome string.
Variable auto_behaviour_id : string.

Local Notation place_bet_request := TxPreparationBehaviour.place_bet_request.
Local Notation multisend_request := TxPreparationBehaviour.multisend_request.
Local Notation safe_tx_hash_request := TxPreparationBehaviour.safe_tx_hash_request.
Local Notation get_place_bet_data := TxPreparationBehaviour.get_place_bet_data.
Local Notation _build_safe_tx_hash :=
  (TxPreparationBehaviour._build_safe_tx_hash hash_payload_to_hex).
Local Notation get_place_bet_safe_tx_hash :=
  (TxPreparationBehaviour.get_place_bet_safe_tx_hash hash_payload_to_hex).
Local Notation get_multisend_safe_tx_hash :=
  (TxPreparationBehaviour.get_multisend_safe_tx_hash hash_payload_to_hex).
Local Notation get_tx_hash :=
  (TxPreparationBehaviour.get_tx_hash hash_payload_to_hex).
Local Notation async_act :=
  (TxPreparationBehaviour.async_act hash_payload_to_hex auto_behaviour_id).

(** X6: [_build_safe_tx_hash] makes exactly one request, to the wallet, and
    it returns a hash only when the wallet answered with the performative
    STATE and a [tx_hash] of length 66, and the encoder returned that hash on
    the [tx_hash] without its first two characters and the value, gas 0,
    destination, data and operation of the call. *)
Theorem build_safe_tx_hash_sound (w : World) (ctx : Context)
    (to_address : string) (value : option Z) (data : option (list Byte.byte))
    (operation : option Z) (safe_tx_hash : string) :
  let value' := default ZERO_VALUE value in
  let data' := default EMPTY_CALL_DATA data in
  let operation' := default (SafeOperation.value SafeOperation.CALL) operation in
  let request := safe_tx_hash_request ctx to_address value' data' operation' in
  let response_msg := w _ (GetContractApiResponse request) in
  let result := run w (_build_safe_tx_hash ctx to_address value data operation) in
  result.1 = [Did (GetContractApiResponse request)] /\
  (result.2 = Returned (Some safe_tx_hash) ->
   performative response_msg = STATE /\
   exists raw stripped : PyVal,
     body response_msg !! "tx_hash" = Some raw /\
     py_len raw = Returned 66%nat /\
     py_slice_from 2 raw = Returned stripped /\
     hash_payload_to_hex stripped value' 0 to_address data' operation' =
       Returned safe_tx_hash).
Proof.
  intros value' data' operation' request response_msg result. subst result.
  rewrite run_build_safe_tx_hash. fold value' data' operation' request response_msg.
  cbv zeta. cbn [fst snd]. split; [done |].
  case_bool_decide as Hp; [done |].
  unfold dict_get. destruct (body response_msg !! "tx_hash") as [raw |] eqn:Hraw;
    [| done].
  change (default VNone (Some raw)) with raw.
  destruct (is_None raw); [done |].
  destruct (py_len raw) as [n | e] eqn:Hlen; [| done].
  case_bool_decide as Hn; [done |].
  destruct (py_slice_from 2 raw) as [stripped | e] eqn:Hstripped; [| done].
  destruct (hash_payload_to_hex _ _ _ _ _ _) as [h | e] eqn:Hh; [| done].
  intros [= <-]. split.
  - by destruct (decide (performative response_msg = STATE)).
  - exists raw, stripped. repeat split; try done.
    destruct (decide (n = TX_HASH_LENGTH)) as [-> | Hne]; [done | by destruct Hn].
Qed.

(** X7: [_build_safe_tx_hash] gives no hash, without raising, when the wallet
    answers with another performative than STATE or without a [tx_hash]; it
    raises [TypeError] when the [tx_hash] is a number, which has no length;
    and it raises what the encoder raises. *)
Theorem build_safe_tx_hash_failures (w : World) (ctx : Context)
    (to_address : string) (value : option Z) (data : option (list Byte.byte))
    (operation : option Z) :
  let value' := default ZERO_VALUE value in
  let data' := default EMPTY_CALL_DATA data in
  let operation' := default (SafeOperation.value SafeOperation.CALL) operation in
  let response_msg :=
    w _ (GetContractApiResponse
           (safe_tx_hash_request ctx to_address value' data' operation')) in
  let result := (run w (_build_safe_tx_hash ctx to_address value data operation)).2 in
  (performative response_msg ≠ STATE \/ body response_msg !! "tx_hash" = None ->
   result = Returned None) /\
  (forall z : Z,
     performative response_msg = STATE ->
     body response_msg !! "tx_hash" = Some (VInt z) ->
     result = Raised TypeError) /\
  (forall (s : string) (e : PyExc),
     performative response_msg = STATE ->
     body response_msg !! "tx_hash" = Some (VStr s) ->
     String.length s = 66%nat ->
     hash_payload_to_hex (VStr (str_slice_from 2 s)) value' 0 to_address data'
       operation' = Raised e ->
     result = Raised e).
Proof.
  intros value' data' operation' response_msg result. subst result.
  rewrite run_build_safe_tx_hash. fold value' data' operation' response_msg.
  cbv zeta. cbn [snd]. unfold dict_get. split; [| split].
  - intros [Hp | Hnone].
    + by rewrite bool_decide_eq_true_2.
    + rewrite Hnone. cbn [default is_None]. by case_bool_decide.
  - intros z Hp Hz. rewrite Hz, bool_decide_eq_false_2 by (by rewrite Hp; intros []).
    reflexivity.
  - intros s e Hp Hs Hlen Hraise.
    rewrite Hs, bool_decide_eq_false_2 by (by rewrite Hp; intros []).
    change (default VNone (Some (VStr s))) with (VStr s).
    cbn [is_None py_len py_slice_from]. rewrite Hlen.
    rewrite bool_decide_eq_false_2 by (by intros []).
    change SAFE_GAS with 0. by rewrite Hraise.
Qed.

(** The run of the batched path once the bet-placement call data is [bs]. *)
Lemma run_get_multisend_safe_tx_hash_bytes (w : World) (ctx : Context)
    (bs : list Byte.byte) :
  let response_msg := w _ (GetContractApiResponse (place_bet_request ctx)) in
  let packing := multisend_request ctx (batched_multi_send_txs ctx bs) in
  let contract_api_msg := w _ (GetContractApiResponse packing) in
  performative response_msg = RAW_TRANSACTION ->
  body response_msg !! "data" = Some (VBytes bs) ->
  run w (get_multisend_safe_tx_hash ctx) =
    let rest :=
      if bool_decide (performative contract_api_msg ≠ RAW_TRANSACTION)
      then ([], Returned None)
      else
        match dict_getitem (body contract_api_msg) "data" with
        | Raised e => ([], Raised e)
        | Returned packed =>
            match py_slice_from 2 packed with
            | Raised e => ([], Raised e)
            | Returned multisend_data =>
                match py_fromhex multisend_data with
                | Raised e => ([], Raised e)
                | Returned data =>
                    run w (_build_safe_tx_hash ctx (multisend_address (params ctx))
                             (Some ZERO_VALUE) (Some data)
                             (Some (SafeOperation.value SafeOperation.DELEGATE_CALL)))
                end
            end
        end in
    (Did (GetContractApiResponse (place_bet_request ctx)) ::
       Did (GetContractApiResponse packing) :: rest.1, rest.2).
Proof.
  intros response_msg packing contract_api_msg Hp Hd.
  unfold TxPreparationBehaviour.get_multisend_safe_tx_hash. cbv zeta.
  rewrite run_eval_bind.
  change (dict_getitem (TxPreparationBehaviour.get_native_transfer_data ctx)
            VALUE_KEY) with (Returned (VInt 1)).
  cbv iota beta.
  rewrite run_bind, (run_get_place_bet_data_bytes w ctx bs) by done.
  cbn [fst snd]. rewrite run_eval_bind, bytes_fromhex_hex.
  rewrite run_perform_bind. cbn [fst snd app].
  change (multisend_request ctx _) with packing. fold contract_api_msg.
  case_bool_decide as Hp'; [done |].
  rewrite run_eval_bind.
  destruct (dict_getitem _ _) as [packed | e]; [| done].
  rewrite run_eval_bind.
  destruct (py_slice_from 2 packed) as [multisend_data | e]; [| done].
  rewrite run_eval_bind.
  destruct (py_fromhex multisend_data) as [data | e]; [| done].
  by rewrite run_bind_mret.
Qed.

Lemma run_get_multisend_safe_tx_hash_unavailable (w : World) (ctx : Context) :
  let response_msg := w _ (GetContractApiResponse (place_bet_request ctx)) in
  performative response_msg ≠ RAW_TRANSACTION \/
    dict_get (body response_msg) "data" = VNone ->
  run w (get_multisend_safe_tx_hash ctx) =
    ([Did (GetContractApiResponse (place_bet_request ctx))], Returned None).
Proof.
  intros response_msg H.
  unfold TxPreparationBehaviour.get_multisend_safe_tx_hash. cbv zeta.
  rewrite run_eval_bind.
  change (dict_getitem (TxPreparationBehaviour.get_native_transfer_data ctx)
            VALUE_KEY) with (Returned (VInt 1)).
  cbv iota beta.
  by rewrite run_bind, run_get_place_bet_data_unavailable.
Qed.

(** X8: how the batched path fails once it has the call data.  When the
    multisend adapter answers with another performative than
    RAW_TRANSACTION the path gives no hash; when the answer has no key
    [data] the path raises [KeyError], and when the data without its first
    two characters cannot be decoded it raises the decoder's exception.  In
    all three cases the wallet is not asked: the two requests made are the
    one for the call data and the one to the multisend adapter. *)
Theorem get_multisend_safe_tx_hash_failures (w : World) (ctx : Context)
    (bs : list Byte.byte) :
  let response_msg := w _ (GetContractApiResponse (place_bet_request ctx)) in
  let packing := multisend_request ctx (batched_multi_send_txs ctx bs) in
  let contract_api_msg := w _ (GetContractApiResponse packing) in
  let requests :=
    [Did (GetContractApiResponse (place_bet_request ctx));
     Did (GetContractApiResponse packing)] in
  performative response_msg = RAW_TRANSACTION ->
  body response_msg !! "data" = Some (VBytes bs) ->
  (performative contract_api_msg ≠ RAW_TRANSACTION ->
   run w (get_multisend_safe_tx_hash ctx) = (requests, Returned None)) /\
  (performative contract_api_msg = RAW_TRANSACTION ->
   body contract_api_msg !! "data" = None ->
   run w (get_multisend_safe_tx_hash ctx) = (requests, Raised KeyError)) /\
  (forall (packed : PyVal) (e : PyExc),
     performative contract_api_msg = RAW_TRANSACTION ->
     body contract_api_msg !! "data" = Some packed ->
     match py_slice_from 2 packed with
     | Returned multisend_data => py_fromhex multisend_data
     | Raised e' => Raised e'
     end = Raised e ->
     run w (get_multisend_safe_tx_hash ctx) = (requests, Raised e)).
Proof.
  intros response_msg packing contract_api_msg requests Hp Hd.
  rewrite (run_get_multisend_safe_tx_hash_bytes w ctx bs) by done.
  fold packing contract_api_msg. cbv zeta.
  split; [| split].
  - intros Hp'. by rewrite bool_decide_eq_true_2.
  - intros Hp' Hnone.
    rewrite bool_decide_eq_false_2 by (by rewrite Hp'; intros []).
    unfold dict_getitem. by rewrite Hnone.
  - intros packed e Hp' Hpacked Hraise.
    rewrite bool_decide_eq_false_2 by (by rewrite Hp'; intros []).
    unfold dict_getitem. rewrite Hpacked.
    destruct (py_slice_from 2 packed) as [multisend_data | e'];
      [| by injection Hraise as ->].
    by rewrite Hraise.
Qed.

(** X9: when the multisend adapter answers with a marker and the hex of
    [packed], the batched path goes on exactly as [_build_safe_tx_hash] does
    for the multisend contract, value 0, the bytes [packed] and operation
    delegate-call: the packed call reaches the wallet request unchanged. *)
Theorem get_multisend_safe_tx_hash_packed (w : World) (ctx : Context)
    (bs packed : list Byte.byte) (c1 c2 : ascii) :
  let response_msg := w _ (GetContractApiResponse (place_bet_request ctx)) in
  let packing := multisend_request ctx (batched_multi_send_txs ctx bs) in
  let contract_api_msg := w _ (GetContractApiResponse packing) in
  let wallet :=
    run w (_build_safe_tx_hash ctx (multisend_address (params ctx)) (Some 0)
             (Some packed)
             (Some (SafeOperation.value SafeOperation.DELEGATE_CALL))) in
  performative response_msg = RAW_TRANSACTION ->
  body response_msg !! "data" = Some (VBytes bs) ->
  performative contract_api_msg = RAW_TRANSACTION ->
  body contract_api_msg !! "data" =
    Some (VStr (String c1 (String c2 (bytes_hex packed)))) ->
  run w (get_multisend_safe_tx_hash ctx) =
    (Did (GetContractApiResponse (place_bet_request ctx)) ::
       Did (GetContractApiResponse packing) :: wallet.1, wallet.2) /\
  contract_requests (run w (get_multisend_safe_tx_hash ctx)).1 !! 2%nat =
    Some (safe_tx_hash_request ctx (multisend_address (params ctx)) 0 packed
            (SafeOperation.value SafeOperation.DELEGATE_CALL)).
Proof.
  intros response_msg packing contract_api_msg wallet Hp Hd Hp' Hpacked.
  rewrite (run_get_multisend_safe_tx_hash_bytes w ctx bs) by done.
  fold packing contract_api_msg. cbv zeta.
  rewrite bool_decide_eq_false_2 by (by rewrite Hp'; intros []).
  unfold dict_getitem. rewrite Hpacked.
  cbn [py_slice_from str_slice_from py_fromhex]. rewrite bytes_fromhex_hex.
  change ZERO_VALUE with 0. fold wallet. split; [done |].
  subst wallet. by rewrite run_build_safe_tx_hash.
Qed.

(** *** Both paths together *)

Lemma run_get_tx_hash_cases (w : World) (ctx : Context) :
  run w (get_tx_hash ctx) = run w (get_place_bet_safe_tx_hash ctx) \/
  run w (get_tx_hash ctx) = run w (get_multisend_safe_tx_hash ctx).
Proof.
  unfold TxPreparationBehaviour.get_tx_hash. cbv zeta.
  destruct (last_number_digit (int_of_float (get_sync_timestamp ctx)))
    as (c & Hc & Hd).
  rewrite run_eval_bind, Hc, run_eval_bind, Hd.
  case_bool_decide; rewrite run_bind_mret; auto.
Qed.

Lemma run_get_place_bet_safe_tx_hash_unavailable (w : World) (ctx : Context) :
  let response_msg := w _ (GetContractApiResponse (place_bet_request ctx)) in
  performative response_msg ≠ RAW_TRANSACTION \/
    dict_get (body response_msg) "data" = VNone ->
  run w (get_place_bet_safe_tx_hash ctx) =
    ([Did (GetContractApiResponse (place_bet_request ctx))], Returned None).
Proof.
  intros response_msg H.
  unfold TxPreparationBehaviour.get_place_bet_safe_tx_hash.
  by rewrite run_bind, run_get_place_bet_data_unavailable.
Qed.

(** The requests of the single path: the one for the call data and, when
    there is call data [bs], the one to the wallet. *)
Lemma get_place_bet_safe_tx_hash_requests (w : World) (ctx : Context) :
  let requests :=
    contract_requests (run w (get_place_bet_safe_tx_hash ctx)).1 in
  requests = [place_bet_request ctx] \/
  exists bs : list Byte.byte,
    requests =
      [place_bet_request ctx;
       safe_tx_hash_request ctx (betting_contract_address (params ctx))
         (betting_amount (params ctx)) bs
         (SafeOperation.value SafeOperation.CALL)].
Proof.
  intros requests. subst requests.
  unfold TxPreparationBehaviour.get_place_bet_safe_tx_hash.
  rewrite run_bind, run_get_place_bet_data. cbv zeta. cbn [fst snd].
  case_bool_decide as Hp; [by left |].
  destruct (is_None _); [by left |].
  destruct (dict_get _ "data") as [| | | | bs | | |]; try by left.
  cbn [py_hex outcome_map].
  rewrite run_eval_bind, bytes_fromhex_hex, run_bind_mret, run_build_safe_tx_hash.
  right. by exists bs.
Qed.

(** The requests of TxPreparation, whatever the path and the answers. *)
Lemma get_tx_hash_requests (w : World) (ctx : Context) :
  let requests := contract_requests (run w (get_tx_hash ctx)).1 in
  requests = [place_bet_request ctx] \/
  exists bs : list Byte.byte,
    requests =
      [place_bet_request ctx;
       safe_tx_hash_request ctx (betting_contract_address (params ctx))
         (betting_amount (params ctx)) bs
         (SafeOperation.value SafeOperation.CALL)] \/
    requests =
      [place_bet_request ctx;
       multisend_request ctx (batched_multi_send_txs ctx bs)] \/
    exists data : list Byte.byte,
      requests =
        [place_bet_request ctx;
         multisend_request ctx (batched_multi_send_txs ctx bs);
         safe_tx_hash_request ctx (multisend_address (params ctx)) ZERO_VALUE
           data (SafeOperation.value SafeOperation.DELEGATE_CALL)].
Proof.
  intros requests. subst requests.
  destruct (run_get_tx_hash_cases w ctx) as [-> | ->].
  - destruct (get_place_bet_safe_tx_hash_requests w ctx) as [H | (bs & H)];
      cbv zeta in H; rewrite H; [by left | right; exists bs; by left].
  - destruct (get_multisend_safe_tx_hash_requests hash_payload_to_hex w ctx)
      as [H | (bs & [H | (data & H)])]; cbv zeta in H; rewrite H.
    + by left.
    + right. exists bs. right. by left.
    + right. exists bs. right. right. by exists data.
Qed.

Lemma contract_requests_tx_preparation_async_act (w : World) (ctx : Context) :
  contract_requests (run w (async_act ctx)).1 =
  contract_requests (run w (get_tx_hash ctx)).1.
Proof.
  rewrite run_tx_preparation_async_act.
  destruct (run w (get_tx_hash ctx)) as [trace [tx_hash | e]]; cbn [fst snd];
    [| done].
  unfold contract_requests. rewrite omap_app. cbn. by rewrite app_nil_r.
Qed.

(** X5: when the bet-placement call data is unavailable, TxPreparation does
    not stop: on either path, after that one request, it sends a payload
    whose hash is [None] and ends normally. *)
Theorem tx_preparation_null_hash_is_submitted (w : World) (ctx : Context) :
  let response_msg := w _ (GetContractApiResponse (place_bet_request ctx)) in
  performative response_msg ≠ RAW_TRANSACTION \/
    dict_get (body response_msg) "data" = VNone ->
  run w (async_act ctx) =
    ([Did (GetContractApiResponse (place_bet_request ctx));
      Did (SendA2ATransaction (PTxPreparation
        {| TxPreparationPayload.sender := agent_address ctx;
           TxPreparationPayload.tx_submitter := auto_behaviour_id;
           TxPreparationPayload.tx_hash := None |}));
      Did WaitUntilRoundEnd; Did SetDone],
     Returned tt).
Proof.
  intros response_msg H. rewrite run_tx_preparation_async_act.
  destruct (run_get_tx_hash_cases w ctx) as [-> | ->].
  - by rewrite run_get_place_bet_safe_tx_hash_unavailable.
  - by rewrite run_get_multisend_safe_tx_hash_unavailable.
Qed.

(** X11: the wrapper and the behaviour fit: when the answer to the request
    for the call data carries what [build_place_bet_tx] returns for an
    encoding that is a marker and the hex of [bs], [get_place_bet_data]
    returns that encoding without its marker, and the single path sends the
    bytes [bs] to the wallet. *)
Theorem place_bet_data_from_wrapper (w : World) (ctx : Context)
    (contract_instance : ContractInstance) (bs : list Byte.byte) (c1 c2 : ascii) :
  let response_msg := w _ (GetContractApiResponse (place_bet_request ctx)) in
  let encoded :=
    encodeABI contract_instance "placeBet"
      [VStr (transfer_target_address (params ctx)); VStr (match_key (params ctx))] in
  encoded = String c1 (String c2 (bytes_hex bs)) ->
  performative response_msg = RAW_TRANSACTION ->
  BettingContract.build_place_bet_tx contract_instance
    (transfer_target_address (params ctx)) (match_key (params ctx)) =
    Returned (body response_msg) ->
  (run w (get_place_bet_data ctx)).2 = Returned (Some (str_slice_from 2 encoded)) /\
  contract_requests (run w (get_place_bet_safe_tx_hash ctx)).1 =
    [place_bet_request ctx;
     safe_tx_hash_request ctx (betting_contract_address (params ctx))
       (betting_amount (params ctx)) bs (SafeOperation.value SafeOperation.CALL)].
Proof.
  intros response_msg encoded Hencoded Hp Hbody.
  unfold BettingContract.build_place_bet_tx in Hbody. cbv zeta in Hbody.
  fold encoded in Hbody. rewrite Hencoded in Hbody |- *.
  cbn [str_slice_from] in Hbody |- *. rewrite bytes_fromhex_hex in Hbody.
  injection Hbody as Hbody.
  assert (body response_msg !! "data" = Some (VBytes bs)) as Hd.
  { rewrite <- Hbody. apply lookup_singleton_eq. }
  split.
  - by rewrite (run_get_place_bet_data_bytes w ctx bs).
  - unfold TxPreparationBehaviour.get_place_bet_safe_tx_hash.
    rewrite run_bind, (run_get_place_bet_data_bytes w ctx bs) by done.
    cbn [fst snd]. rewrite run_eval_bind, bytes_fromhex_hex, run_bind_mret.
    by rewrite run_build_safe_tx_hash.
Qed.

(** *** The three stages together *)

Lemma is_request_contract_only {A} (w : World) (g : Gen A) :
  contract_only g -> forallb is_request (run w g).1 = true.
Proof.
  intros Hg. induction Hg as [a | e | request k _ IH]; [done | done | apply IH].
Qed.

Lemma contract_requests_data_pull_async_act (w : World) (ctx : Context) :
  contract_requests (run w (DataPullBehaviour.async_act ctx)).1 =
    [DataPullBehaviour.has_placed_bet_request ctx].
Proof.
  rewrite run_data_pull_async_act. cbv zeta.
  destruct (run w (DataPullBehaviour.get_has_placed_bet ctx)).2 as [flag | e];
    [| done].
  destruct (py_getitem_str _ _) as [betting_result | e]; [| done].
  by destruct (py_getitem_0 _).
Qed.

Lemma run_decision_making_async_act (w : World) (ctx : Context) :
  run w (DecisionMakingBehaviour.async_act ctx) =
    ([Did (SendA2ATransaction (PDecisionMaking
        {| DecisionMakingPayload.sender := agent_address ctx;
           DecisionMakingPayload.event :=
             DecisionMakingBehaviour.get_next_event ctx |}));
      Did WaitUntilRoundEnd; Did SetDone],
     Returned tt).
Proof.
  unfold DecisionMakingBehaviour.async_act. cbv zeta.
  rewrite !run_perform_bind, run_perform. cbn [fst snd].
  by destruct (w unit SetDone).
Qed.

(** X4: every stage either ends normally, having sent exactly one payload,
    whose sender is the agent's own address, then awaited the end of the
    round and only then set itself done; or it raises, having sent nothing
    and not set itself done. *)
Theorem stages_send_once_then_done (w : World) (ctx : Context) :
  sends_once_then_done (agent_address ctx)
    (run w (DataPullBehaviour.async_act ctx)) /\
  sends_once_then_done (agent_address ctx)
    (run w (DecisionMakingBehaviour.async_act ctx)) /\
  sends_once_then_done (agent_address ctx) (run w (async_act ctx)).
Proof.
  unfold sends_once_then_done. split; [| split].
  - rewrite run_data_pull_async_act. cbv zeta.
    destruct (run w (DataPullBehaviour.get_has_placed_bet ctx)).2 as [flag | e];
      [| done].
    destruct (py_getitem_str _ _) as [betting_result | e]; [| done].
    destruct (py_getitem_0 _) as [flag_0 | e]; [| done].
    cbn [fst snd]. by eexists _, _.
  - rewrite run_decision_making_async_act. cbn [fst snd].
    by exists [], (PDecisionMaking
                     {| DecisionMakingPayload.sender := agent_address ctx;
                        DecisionMakingPayload.event :=
                          DecisionMakingBehaviour.get_next_event ctx |}).
  - rewrite run_tx_preparation_async_act.
    pose proof (is_request_contract_only w _
                  (contract_only_get_tx_hash hash_payload_to_hex ctx)) as Hrequests.
    destruct (run w (get_tx_hash ctx)) as [trace [tx_hash | e]];
      cbn [fst snd] in *; [| done].
    by eexists _, _.
Qed.

(** X12: the first request of TxPreparation is always the one for the
    bet-placement call data; the stage makes at most three requests to the
    contract interface; and the wallet is asked at most once, after the
    others. *)
Theorem tx_preparation_request_shape (w : World) (ctx : Context) :
  let requests := contract_requests (run w (async_act ctx)).1 in
  head requests = Some (place_bet_request ctx) /\
  (length requests <= 3)%nat /\
  (forall (i : nat) (request : ContractApiRequest),
     requests !! i = Some request ->
     contract_id request = GnosisSafeContract ->
     (1 <= i)%nat /\ S i = length requests).
Proof.
  intros requests. subst requests.
  rewrite contract_requests_tx_preparation_async_act.
  destruct (get_tx_hash_requests w ctx)
    as [H | (bs & [H | [H | (data & H)]])]; cbv zeta in H; rewrite H;
    (split; [done |]); (split; [cbn; lia |]); intros i request Hi Hid.
  - destruct i as [| i]; [| done]. by injection Hi as <-.
  - destruct i as [| [| i]]; [| | done]; injection Hi as <-; [done |].
    cbn. lia.
  - destruct i as [| [| i]]; [| | done]; by injection Hi as <-.
  - destruct i as [| [| [| i]]]; [| | | done]; injection Hi as <-; try done.
    cbn. lia.
Qed.

(** X13: every request a stage makes to the contract interface is for the
    chain [gnosis].  The Betting contract is asked at its configured address
    with GET_RAW_TRANSACTION, only for [has_placed_bet] or
    [build_place_bet_tx], and always about the configured transfer target as
    bettor and the configured match key; the multisend contract at its
    configured address for [get_tx_data]; the wallet at the synchronized safe
    address with GET_STATE, for the raw hash with gas 0. *)
Theorem contract_requests_invariant (w : World) (ctx : Context)
    (request : ContractApiRequest) :
  request ∈ contract_requests (run w (DataPullBehaviour.async_act ctx)).1 ++
            contract_requests (run w (DecisionMakingBehaviour.async_act ctx)).1 ++
            contract_requests (run w (async_act ctx)).1 ->
  kwargs request !! "chain_id" = Some (VStr "gnosis") /\
  match contract_id request with
  | Betting =>
      request_performative request = GET_RAW_TRANSACTION /\
      contract_address request = betting_contract_address (params ctx) /\
      (contract_callable request = "has_placed_bet" \/
       contract_callable request = "build_place_bet_tx") /\
      kwargs request !! "bettor" =
        Some (VStr (transfer_target_address (params ctx))) /\
      kwargs request !! "match_key" = Some (VStr (match_key (params ctx)))
  | MultiSendContract =>
      request_performative request = GET_RAW_TRANSACTION /\
      contract_address request = multisend_address (params ctx) /\
      contract_callable request = "get_tx_data"
  | GnosisSafeContract =>
      request_performative request = GET_STATE /\
      contract_address request = safe_contract_address (synchronized_data ctx) /\
      contract_callable request = "get_raw_safe_transaction_hash" /\
      kwargs request !! "safe_tx_gas" = Some (VInt 0)
  end.
Proof.
  rewrite contract_requests_data_pull_async_act, run_decision_making_async_act,
    contract_requests_tx_preparation_async_act.
  change (contract_requests (_, Returned tt).1) with (@nil ContractApiRequest).
  rewrite app_nil_l. cbn [app]. rewrite elem_of_cons. intros [-> | Hin].
  { split; [reflexivity |]. cbn [contract_id]. repeat split; auto. }
  destruct (get_tx_hash_requests w ctx)
    as [H | (bs & [H | [H | (data & H)]])]; cbv zeta in H; rewrite H in Hin;
    rewrite ?elem_of_cons, elem_of_nil in Hin;
    repeat (destruct Hin as [-> | Hin]); try done;
    (split; [reflexivity |]); cbn [contract_id];
    repeat split; try reflexivity; auto.
Qed.

End TxPreparationFurther.

(** ** The further properties on the sample agent *)

Lemma build_safe_tx_hash_sound_witness :
  (run sample_outside
     (TxPreparationBehaviour._build_safe_tx_hash sample_hash_payload_to_hex
        sample_ctx (betting_contract_address sample_params) (Some 1000)
        (Some []) None)).2 =
    Returned
      (Some ("00112233445566778899aabbccddeeff00112233445566778899aabbccddeeff"
             +:+ "1000" +:+ "0")) /\
  performative
    (sample_outside _
       (GetContractApiResponse
          (TxPreparationBehaviour.safe_tx_hash_request sample_ctx
             (betting_contract_address sample_params) 1000 [] 0))) = STATE.
Proof.
  assert ((run sample_outside
             (TxPreparationBehaviour._build_safe_tx_hash sample_hash_payload_to_hex
                sample_ctx (betting_contract_address sample_params) (Some 1000)
                (Some []) None)).2 =
          Returned
            (Some ("00112233445566778899aabbccddeeff00112233445566778899aabbccddeeff"
                   +:+ "1000" +:+ "0"))) as Hresult by reflexivity.
  split; [exact Hresult |].
  exact (proj1 (proj2 (build_safe_tx_hash_sound sample_hash_payload_to_hex
                         sample_outside sample_ctx
                         (betting_contract_address sample_params) (Some 1000)
                         (Some []) None _) Hresult)).
Defined.

Lemma build_safe_tx_hash_failures_witness :
  (performative
     (sample_outside_wallet_error _
        (GetContractApiResponse
           (TxPreparationBehaviour.safe_tx_hash_request sample_ctx
              (betting_contract_address sample_params) 1000 [] 0))) ≠ STATE /\
   (run sample_outside_wallet_error
      (TxPreparationBehaviour._build_safe_tx_hash sample_hash_payload_to_hex
         sample_ctx (betting_contract_address sample_params) (Some 1000)
         (Some []) None)).2 = Returned None) /\
  (body
     (sample_outside_wallet_number _
        (GetContractApiResponse
           (TxPreparationBehaviour.safe_tx_hash_request sample_ctx
              (betting_contract_address sample_params) 1000 [] 0)))
     !! "tx_hash" = Some (VInt 66) /\
   (run sample_outside_wallet_number
      (TxPreparationBehaviour._build_safe_tx_hash sample_hash_payload_to_hex
         sample_ctx (betting_contract_address sample_params) (Some 1000)
         (Some []) None)).2 = Raised TypeError).
Proof.
  split.
  - assert (performative
              (sample_outside_wallet_error _
                 (GetContractApiResponse
                    (TxPreparationBehaviour.safe_tx_hash_request sample_ctx
                       (betting_contract_address sample_params) 1000 [] 0)))
            ≠ STATE) as Hp by done.
    split; [exact Hp |].
    exact (proj1 (build_safe_tx_hash_failures sample_hash_payload_to_hex
                    sample_outside_wallet_error sample_ctx
                    (betting_contract_address sample_params) (Some 1000)
                    (Some []) None) (or_introl Hp)).
  - split; [reflexivity |].
    exact (proj1 (proj2 (build_safe_tx_hash_failures sample_hash_payload_to_hex
                           sample_outside_wallet_number sample_ctx
                           (betting_contract_address sample_params) (Some 1000)
                           (Some []) None)) 66 eq_refl eq_refl).
Defined.

Lemma get_multisend_safe_tx_hash_failures_witness :
  (performative
     (sample_outside_multisend_error _
        (GetContractApiResponse
           (TxPreparationBehaviour.multisend_request sample_batched_ctx
              (batched_multi_send_txs sample_batched_ctx
                 [Byte.xa9; Byte.x05; Byte.x9c; Byte.xbb])))) ≠ RAW_TRANSACTION /\
   (run sample_outside_multisend_error
      (TxPreparationBehaviour.get_multisend_safe_tx_hash
         sample_hash_payload_to_hex sample_batched_ctx)).2 = Returned None) /\
  (body
     (sample_outside_multisend_without_data _
        (GetContractApiResponse
           (TxPreparationBehaviour.multisend_request sample_batched_ctx
              (batched_multi_send_txs sample_batched_ctx
                 [Byte.xa9; Byte.x05; Byte.x9c; Byte.xbb])))) !! "data" = None /\
   (run sample_outside_multisend_without_data
      (TxPreparationBehaviour.get_multisend_safe_tx_hash
         sample_hash_payload_to_hex sample_batched_ctx)).2 = Raised KeyError) /\
  (body
     (sample_outside_multisend_not_hex _
        (GetContractApiResponse
           (TxPreparationBehaviour.multisend_request sample_batched_ctx
              (batched_multi_send_txs sample_batched_ctx
                 [Byte.xa9; Byte.x05; Byte.x9c; Byte.xbb])))) !! "data" =
     Some (VStr "0x8d8") /\
   (run sample_outside_multisend_not_hex
      (TxPreparationBehaviour.get_multisend_safe_tx_hash
         sample_hash_payload_to_hex sample_batched_ctx)).2 = Raised ValueError).
Proof.
  split; [| split].
  - assert (performative
              (sample_outside_multisend_error _
                 (GetContractApiResponse
                    (TxPreparationBehaviour.multisend_request sample_batched_ctx
                       (batched_multi_send_txs sample_batched_ctx
                          [Byte.xa9; Byte.x05; Byte.x9c; Byte.xbb]))))
            ≠ RAW_TRANSACTION) as Hp by done.
    split; [exact Hp |].
    rewrite (proj1 (get_multisend_safe_tx_hash_failures sample_hash_payload_to_hex
                      sample_outside_multisend_error sample_batched_ctx
                      [Byte.xa9; Byte.x05; Byte.x9c; Byte.xbb] eq_refl eq_refl) Hp).
    reflexivity.
  - split; [reflexivity |].
    rewrite (proj1 (proj2 (get_multisend_safe_tx_hash_failures
                             sample_hash_payload_to_hex
                             sample_outside_multisend_without_data
                             sample_batched_ctx
                             [Byte.xa9; Byte.x05; Byte.x9c; Byte.xbb]
                             eq_refl eq_refl)) eq_refl eq_refl).
    reflexivity.
  - split; [reflexivity |].
    rewrite (proj2 (proj2 (get_multisend_safe_tx_hash_failures
                             sample_hash_payload_to_hex
                             sample_outside_multisend_not_hex
                             sample_batched_ctx
                             [Byte.xa9; Byte.x05; Byte.x9c; Byte.xbb]
                             eq_refl eq_refl))
               (VStr "0x8d8") ValueError eq_refl eq_refl eq_refl).
    reflexivity.
Defined.

Lemma get_multisend_safe_tx_hash_packed_witness :
  (body
     (sample_outside _
        (GetContractApiResponse
           (TxPreparationBehaviour.multisend_request sample_batched_ctx
              (batched_multi_send_txs sample_batched_ctx
                 [Byte.xa9; Byte.x05; Byte.x9c; Byte.xbb])))) !! "data" =
     Some (VStr (String "0" (String "x"
       (bytes_hex [Byte.x8d; Byte.x80; Byte.xff; Byte.x0a; Byte.x00]))))) /\
  contract_requests
    (run sample_outside
       (TxPreparationBehaviour.get_multisend_safe_tx_hash
          sample_hash_payload_to_hex sample_batched_ctx)).1 !! 2%nat =
    Some (TxPreparationBehaviour.safe_tx_hash_request sample_batched_ctx
            (multisend_address (params sample_batched_ctx)) 0
            [Byte.x8d; Byte.x80; Byte.xff; Byte.x0a; Byte.x00]
            (SafeOperation.value SafeOperation.DELEGATE_CALL)).
Proof.
  split; [reflexivity |].
  exact (proj2 (get_multisend_safe_tx_hash_packed sample_hash_payload_to_hex
                  sample_outside sample_batched_ctx
                  [Byte.xa9; Byte.x05; Byte.x9c; Byte.xbb]
                  [Byte.x8d; Byte.x80; Byte.xff; Byte.x0a; Byte.x00]
                  "0"%char "x"%char eq_refl eq_refl eq_refl eq_refl)).
Defined.

Lemma tx_preparation_null_hash_is_submitted_witness :
  performative
    (sample_outside_no_call_data _
       (GetContractApiResponse
          (TxPreparationBehaviour.place_bet_request sample_ctx))) ≠
    RAW_TRANSACTION /\
  submitted_payloads
    (run sample_outside_no_call_data
       (TxPreparationBehaviour.async_act sample_hash_payload_to_hex
          "tx_preparation_behaviour" sample_ctx)).1 =
    [PTxPreparation
       {| TxPreparationPayload.sender := "agent-0";
          TxPreparationPayload.tx_submitter := "tx_preparation_behaviour";
          TxPreparationPayload.tx_hash := None |}].
Proof.
  assert (performative
            (sample_outside_no_call_data _
               (GetContractApiResponse
                  (TxPreparationBehaviour.place_bet_request sample_ctx))) ≠
          RAW_TRANSACTION) as Hp by done.
  split; [exact Hp |].
  rewrite (tx_preparation_null_hash_is_submitted sample_hash_payload_to_hex
             "tx_preparation_behaviour" sample_outside_no_call_data sample_ctx
             (or_introl Hp)).
  reflexivity.
Defined.

Lemma place_bet_data_from_wrapper_witness :
  (encodeABI sample_contract_instance "placeBet"
     [VStr (transfer_target_address (params sample_ctx));
      VStr (match_key (params sample_ctx))] =
     String "0" (String "x" (bytes_hex [Byte.xa9; Byte.x05; Byte.x9c; Byte.xbb])) /\
   BettingContract.build_place_bet_tx sample_contract_instance
     (transfer_target_address (params sample_ctx)) (match_key (params sample_ctx)) =
     Returned
       (body (sample_outside _
                (GetContractApiResponse
                   (TxPreparationBehaviour.place_bet_request sample_ctx))))) /\
  (run sample_outside (TxPreparationBehaviour.get_place_bet_data sample_ctx)).2 =
    Returned (Some "a9059cbb").
Proof.
  split; [split; reflexivity |].
  exact (proj1 (place_bet_data_from_wrapper sample_hash_payload_to_hex
                  sample_outside sample_ctx sample_contract_instance
                  [Byte.xa9; Byte.x05; Byte.x9c; Byte.xbb] "0"%char "x"%char
                  eq_refl eq_refl eq_refl)).
Defined.

Lemma tx_preparation_request_shape_witness :
  (contract_requests
     (run sample_outside
        (TxPreparationBehaviour.async_act sample_hash_payload_to_hex
           "tx_preparation_behaviour" sample_ctx)).1 !! 1%nat =
     Some (TxPreparationBehaviour.safe_tx_hash_request sample_ctx
             (betting_contract_address sample_params) 1000
             [Byte.xa9; Byte.x05; Byte.x9c; Byte.xbb] 0) /\
   contract_id
     (TxPreparationBehaviour.safe_tx_hash_request sample_ctx
        (betting_contract_address sample_params) 1000
        [Byte.xa9; Byte.x05; Byte.x9c; Byte.xbb] 0) = GnosisSafeContract) /\
  2%nat =
    length
      (contract_requests
         (run sample_outside
            (TxPreparationBehaviour.async_act sample_hash_payload_to_hex
               "tx_preparation_behaviour" sample_ctx)).1).
Proof.
  split; [split; reflexivity |].
  exact (proj2 (proj2 (proj2 (tx_preparation_request_shape
                                sample_hash_payload_to_hex
                                "tx_preparation_behaviour" sample_outside
                                sample_ctx)) 1%nat _ eq_refl eq_refl)).
Defined.

Lemma contract_requests_invariant_witness :
  TxPreparationBehaviour.place_bet_request sample_ctx
    ∈ contract_requests (run sample_outside (DataPullBehaviour.async_act sample_ctx)).1 ++
      contract_requests
        (run sample_outside (DecisionMakingBehaviour.async_act sample_ctx)).1 ++
      contract_requests
        (run sample_outside
           (TxPreparationBehaviour.async_act sample_hash_payload_to_hex
              "tx_preparation_behaviour" sample_ctx)).1 /\
  kwargs (TxPreparationBehaviour.place_bet_request sample_ctx) !! "chain_id" =
    Some (VStr "gnosis").
Proof.
  assert (TxPreparationBehaviour.place_bet_request sample_ctx
            ∈ contract_requests
                (run sample_outside (DataPullBehaviour.async_act sample_ctx)).1 ++
              contract_requests
                (run sample_outside
                   (DecisionMakingBehaviour.async_act sample_ctx)).1 ++
              contract_requests
                (run sample_outside
                   (TxPreparationBehaviour.async_act sample_hash_payload_to_hex
                      "tx_preparation_behaviour" sample_ctx)).1) as Hin.
  { apply list_elem_of_lookup. by exists 1%nat. }
  split; [exact Hin |].
  exact (proj1 (contract_requests_invariant sample_hash_payload_to_hex
                  "tx_preparation_behaviour" sample_outside sample_ctx _ Hin)).
Defined.
